(** * tskctl: the task lifecycle and validation engine

    A shallow embedding of the engine of tskctl (model.py, scan.py, parse.py,
    validate.py, ops.py, actions.py) and the proofs of its specified
    properties.

    Conventions of the embedding:
    - a Python [str] is a list of characters; the development covers the
      ASCII range, where [str.isspace] holds of the codes 9-13 and 28-32 and
      [str.lower] maps A-Z to a-z;
    - a [pathlib.Path] is the list of its components below the file-system
      root, and the file system is a finite map from paths to nodes (no
      symbolic links); scan.py, which guards against [PermissionError], is
      modelled with the directories that deny search besides;
    - PyYAML is an interface ([PyYAML]): the engine only relies on
      [safe_dump] and [safe_load];
    - an exception is a value of [exn]; code that can raise returns a
      [result]; code with side effects threads the [world] it acts on. *)

From Stdlib Require Import ZArith List Ascii String Lia Bool Sorting.Sorted.
From stdpp Require Import base option list gmap strings.
Import ListNotations.

#[local] Open Scope Z_scope.
#[local] Open Scope list_scope.

(* ===================================================================== *)
(** * Python strings *)
(* ===================================================================== *)

Definition str := list ascii.

Coercion list_ascii_of_string : string >-> list.

Module PyStr.

(** [str.isspace] on one ASCII character. *)
Definition isspace (c : ascii) : bool :=
  let n := nat_of_ascii c in
  ((9 <=? n) && (n <=? 13) || (28 <=? n) && (n <=? 32))%nat.

Definition isdigit (c : ascii) : bool :=
  let n := nat_of_ascii c in ((48 <=? n) && (n <=? 57))%nat.

Definition isupper (c : ascii) : bool :=
  let n := nat_of_ascii c in ((65 <=? n) && (n <=? 90))%nat.

Definition islower (c : ascii) : bool :=
  let n := nat_of_ascii c in ((97 <=? n) && (n <=? 122))%nat.

Definition lower_char (c : ascii) : ascii :=
  if isupper c then ascii_of_nat (nat_of_ascii c + 32) else c.

(** [s.lower()] *)
Definition lower (s : str) : str := map lower_char s.

Fixpoint drop_while (p : ascii -> bool) (s : str) : str :=
  match s with
  | [] => []
  | c :: r => if p c then drop_while p r else s
  end.

Fixpoint take_while (p : ascii -> bool) (s : str) : str :=
  match s with
  | [] => []
  | c :: r => if p c then c :: take_while p r else []
  end.

(** [s.lstrip()], [s.rstrip()], [s.strip()] and [s.strip(chars)] for a
    one-character [chars]. *)
Definition lstrip_with (p : ascii -> bool) (s : str) : str := drop_while p s.
Definition rstrip_with (p : ascii -> bool) (s : str) : str :=
  rev (drop_while p (rev s)).
Definition strip_with (p : ascii -> bool) (s : str) : str :=
  rstrip_with p (lstrip_with p s).

Definition lstrip : str -> str := lstrip_with isspace.
Definition rstrip : str -> str := rstrip_with isspace.
Definition strip : str -> str := strip_with isspace.

(** Truth value of a string: [bool(s)]. *)
Definition truthy (s : str) : bool :=
  match s with [] => false | _ => true end.

Definition eqb (a b : str) : bool := bool_decide (a = b).

(** [c in s] for a character [c]. *)
Definition contains_char (c : ascii) (s : str) : bool :=
  existsb (Ascii.eqb c) s.

Fixpoint startswith (s pre : str) : bool :=
  match pre, s with
  | [], _ => true
  | p :: pre', c :: s' => Ascii.eqb p c && startswith s' pre'
  | _ :: _, [] => false
  end.

(** [sub in s] for a substring [sub]. *)
Fixpoint contains (sub s : str) : bool :=
  startswith s sub ||
  match s with
  | [] => false
  | _ :: r => contains sub r
  end.

(** [s.split()[0]] for a string that is not blank: the first maximal run of
    characters that are not whitespace. *)
Definition first_token (s : str) : str :=
  take_while (fun c => negb (isspace c)) (lstrip s).

(** [s.split(c, 1)] at a character [c] that occurs in [s]: the text before
    the first [c] and the text after it. *)
Fixpoint split_once (c : ascii) (s : str) : str * str :=
  match s with
  | [] => ([], [])
  | x :: r =>
      if Ascii.eqb x c then ([], r)
      else let '(a, b) := split_once c r in (x :: a, b)
  end.

(** [sep.join(parts)] *)
Fixpoint join (sep : str) (parts : list str) : str :=
  match parts with
  | [] => []
  | [p] => p
  | p :: rest => p ++ sep ++ join sep rest
  end.

(** [s.split(sep, maxsplit)] for a non-empty separator; [fuel] bounds the
    scan and is the length of the text. *)
Fixpoint split_at_sep (fuel : nat) (sep s : str) : option (str * str) :=
  match fuel with
  | O => None
  | S fuel' =>
      if startswith s sep then Some ([], drop (length sep) s)
      else match s with
           | [] => None
           | c :: r =>
               match split_at_sep fuel' sep r with
               | Some (a, b) => Some (c :: a, b)
               | None => None
               end
           end
  end.

Fixpoint split_max (maxsplit : nat) (sep s : str) : list str :=
  match maxsplit with
  | O => [s]
  | S k =>
      match split_at_sep (S (length s)) sep s with
      | Some (a, b) => a :: split_max k sep b
      | None => [s]
      end
  end.

(** A line boundary of [str.splitlines] (ASCII range): LF, VT, FF, CR, FS,
    GS, RS. *)
Definition is_linebreak (c : ascii) : bool :=
  let n := nat_of_ascii c in
  ((10 <=? n) && (n <=? 13) || (28 <=? n) && (n <=? 30))%nat.

(** [s.splitlines()]: [cur] is the line being read, in reverse; [after_cr]
    tells that the previous character was a CR, so that CR LF is one
    boundary; no empty last line is produced. *)
Fixpoint splitlines_from (after_cr : bool) (cur : str) (s : str) : list str :=
  match s with
  | [] => match cur with [] => [] | _ => [rev cur] end
  | c :: r =>
      if after_cr && Ascii.eqb c "010" then splitlines_from false [] r
      else if is_linebreak c then
        rev cur :: splitlines_from (Ascii.eqb c "013") [] r
      else splitlines_from false (c :: cur) r
  end.

Definition splitlines (s : str) : list str := splitlines_from false [] s.

(** [re.sub(r"C+", "_", s)] for a character class [C] given as a predicate:
    every maximal run of [C]-characters becomes one underscore; [in_run]
    tells that the previous character was in the class. *)
Fixpoint sub_runs_from (in_run : bool) (p : ascii -> bool) (s : str) : str :=
  match s with
  | [] => []
  | c :: r =>
      if p c then
        if in_run then sub_runs_from true p r
        else "_"%char :: sub_runs_from true p r
      else c :: sub_runs_from false p r
  end.

Definition sub_runs : (ascii -> bool) -> str -> str := sub_runs_from false.

(** ** Integers as text *)

Definition digit_char (d : Z) : ascii := ascii_of_nat (48 + Z.to_nat d).

Definition digit_value (c : ascii) : Z := Z.of_nat (nat_of_ascii c) - 48.

(** The decimal digits of a natural number, most significant first. *)
Fixpoint dec_from (fuel : nat) (n : Z) (acc : str) : str :=
  match fuel with
  | O => acc
  | S fuel' =>
      let acc' := digit_char (n mod 10) :: acc in
      if n <? 10 then acc' else dec_from fuel' (n / 10) acc'
  end.

Definition dec (n : Z) : str := dec_from (S (Z.to_nat (Z.log2 n))) n [].

(** [str(n)] and [f"{n}"] for an integer. *)
Definition str_of_int (n : Z) : str :=
  if n <? 0 then "-"%char :: dec (- n) else dec n.

(** [f"{n:0wd}"]: sign-aware zero padding to width [w]. *)
Definition format_0d (w : nat) (n : Z) : str :=
  let body := dec (Z.abs n) in
  let sign : str := if n <? 0 then ["-"%char] else [] in
  sign ++ repeat "0"%char (w - length sign - length body) ++ body.

(** The whitespace that [int] skips around a number: the space and the
    codes 9-13 (tab, line feed, vertical tab, form feed, carriage return);
    the separators 28-31, which [str.isspace] accepts, are not skipped. *)
Definition is_c_space (c : ascii) : bool :=
  let n := nat_of_ascii c in
  ((9 <=? n) && (n <=? 13) || (n =? 32))%nat.

(** [int(s)] on a string: surrounding whitespace, an optional sign, then
    digits where single underscores may separate digits.  [None] is
    [ValueError]. *)
Inductive int_state := IntStart | IntDigit | IntUnderscore.

Fixpoint int_body (st : int_state) (acc : Z) (s : str) : option Z :=
  match s with
  | [] => match st with IntDigit => Some acc | _ => None end
  | c :: r =>
      if isdigit c then int_body IntDigit (10 * acc + digit_value c) r
      else if Ascii.eqb c "_" then
        match st with
        | IntDigit => int_body IntUnderscore acc r
        | _ => None
        end
      else None
  end.

Definition int_of_str (s : str) : option Z :=
  match strip_with is_c_space s with
  | "+"%char :: r => int_body IntStart 0 r
  | "-"%char :: r => Z.opp <$> int_body IntStart 0 r
  | t => int_body IntStart 0 t
  end.

(** [a < b] on strings: the order of the first character that differs, a
    proper prefix coming first. *)
Fixpoint ltb (a b : str) : bool :=
  match a, b with
  | _, [] => false
  | [], _ :: _ => true
  | x :: a', y :: b' =>
      (nat_of_ascii x <? nat_of_ascii y)%nat
      || (Ascii.eqb x y && ltb a' b')
  end.

End PyStr.

(* ===================================================================== *)
(** * Calendar dates ([datetime.date]) *)
(* ===================================================================== *)

Module Date.

Record date := mk { year : Z; month : Z; day : Z }.

Definition is_leap (y : Z) : bool :=
  (y mod 4 =? 0) && (negb (y mod 100 =? 0) || (y mod 400 =? 0)).

Definition days_in_month (y m : Z) : Z :=
  if m =? 2 then (if is_leap y then 29 else 28)
  else if (m =? 4) || (m =? 6) || (m =? 9) || (m =? 11) then 30
  else 31.

(** The range check of the [date] constructor (MINYEAR = 1,
    MAXYEAR = 9999). *)
Definition valid (d : date) : bool :=
  (1 <=? year d) && (year d <=? 9999) &&
  (1 <=? month d) && (month d <=? 12) &&
  (1 <=? day d) && (day d <=? days_in_month (year d) (month d)).

(** Dates compare as the tuples (year, month, day). *)
Definition ltb (a b : date) : bool :=
  (year a <? year b) ||
  ((year a =? year b) &&
   ((month a <? month b) || ((month a =? month b) && (day a <? day b)))).

Definition leb (a b : date) : bool := negb (ltb b a).

Definition le (a b : date) : Prop :=
  year a < year b \/
  (year a = year b /\
   (month a < month b \/ (month a = month b /\ day a <= day b))).

(** [n] as [w] decimal digits, for 0 <= n < 10^w. *)
Fixpoint fixed_digits (w : nat) (n : Z) : str :=
  match w with
  | O => []
  | S w' => fixed_digits w' (n / 10) ++ [PyStr.digit_char (n mod 10)]
  end.

(** [d.isoformat()]: "%04d-%02d-%02d". *)
Definition isoformat (d : date) : str :=
  fixed_digits 4 (year d) ++ "-" ++ fixed_digits 2 (month d) ++ "-"
  ++ fixed_digits 2 (day d).

Fixpoint parse_digits (acc : Z) (s : str) : option Z :=
  match s with
  | [] => Some acc
  | c :: r =>
      if PyStr.isdigit c then parse_digits (10 * acc + PyStr.digit_value c) r
      else None
  end.

(** [date.fromisoformat(s)] on the format YYYY-MM-DD; [None] is
    [ValueError]. *)
Definition fromisoformat (s : str) : option date :=
  match s with
  | [y1; y2; y3; y4; "-"%char; m1; m2; "-"%char; d1; d2] =>
      y ← parse_digits 0 [y1; y2; y3; y4];
      m ← parse_digits 0 [m1; m2];
      d ← parse_digits 0 [d1; d2];
      let r := mk y m d in
      if valid r then Some r else None
  | _ => None
  end.

End Date.

Abbreviation date := Date.date.

#[export] Instance date_eq_dec : EqDecision date.
Proof. solve_decision. Defined.

(** [sorted(xs, key=key)]: the sort is stable, an element goes before the
    first one whose key is not smaller than its own. *)
Fixpoint insort {A K : Type} (key_ltb : K -> K -> bool) (key : A -> K)
    (x : A) (l : list A) : list A :=
  match l with
  | [] => [x]
  | y :: r =>
      if key_ltb (key y) (key x) then y :: insort key_ltb key x r
      else x :: l
  end.

Definition sorted {A K : Type} (key_ltb : K -> K -> bool) (key : A -> K)
    (xs : list A) : list A :=
  fold_right (insort key_ltb key) [] xs.

(* ===================================================================== *)
(** * Values loaded from YAML, exceptions, results *)
(* ===================================================================== *)

(** What [yaml.safe_load] can return.  Mappings are association lists looked
    up by string key (first match). *)
#[local] Unset Elimination Schemes.
Inductive yaml :=
| YNull
| YBool (b : bool)
| YInt (n : Z)
| YFloat (repr : str)
| YStr (s : str)
| YDate (d : date)
| YDateTime (d : date) (time : str)
| YList (items : list yaml)
| YMap (entries : list (str * yaml)).
#[local] Set Elimination Schemes.

Definition dict := list (str * yaml).

(** [key in data] and [data.get(key)] *)
Fixpoint dict_get (data : dict) (key : str) : option yaml :=
  match data with
  | [] => None
  | (k, v) :: rest => if PyStr.eqb k key then Some v else dict_get rest key
  end.

(** [bool(v)]: the truth value of a loaded value. *)
Definition yaml_truthy (v : yaml) : bool :=
  match v with
  | YNull => false
  | YBool b => b
  | YInt n => negb (n =? 0)
  | YFloat r => negb (PyStr.eqb r "0.0" || PyStr.eqb r "-0.0")
  | YStr s => PyStr.truthy s
  | YList [] => false
  | YMap [] => false
  | _ => true
  end.

Definition path := list str.

Inductive exn :=
| ValueError (msg : str)
| ParseError (at_path : path) (message : str)
| ValidationError (msg : str)
| FileNotFoundError (p : path)
| FileExistsError (p : path)
| NotADirectoryError (p : path)
| IsADirectoryError (p : path)
| PermissionError (p : path)
| EOFError
| YAMLError (msg : str)
| RuntimeError (msg : str).

Inductive result (A : Type) :=
| Ok (a : A)
| Raise (e : exn).

Arguments Ok {A} a.
Arguments Raise {A} e.

#[export] Instance result_ret : MRet result := fun A a => Ok a.
#[export] Instance result_bind : MBind result := fun A B f m =>
  match m with
  | Ok a => f a
  | Raise e => Raise e
  end.

(** PyYAML, as far as the engine uses it. *)
Class PyYAML := {
  safe_dump : yaml -> str;
  safe_load : str -> result yaml;
}.

(** Computations that act on a state [S] and can raise: the state reached
    is returned in both cases. *)
Definition st (S A : Type) : Type := S -> result A * S.

#[export] Instance st_ret {S} : MRet (st S) := fun A a s => (Ok a, s).
#[export] Instance st_bind {S} : MBind (st S) := fun A B f m s =>
  match m s with
  | (Ok a, s') => f a s'
  | (Raise e, s') => (Raise e, s')
  end.

Definition raise {S A} (e : exn) : st S A := fun s => (Raise e, s).
Definition get {S} : st S S := fun s => (Ok s, s).
Definition put {S} (s : S) : st S unit := fun _ => (Ok tt, s).

(* ===================================================================== *)
(** * The file system and the environment *)
(* ===================================================================== *)

(** A node is a regular file with its text or a directory; [listable] is
    false for a directory whose listing raises [PermissionError]. *)
Inductive node :=
| File (text : str)
| Dir (listable : bool).

Abbreviation fsys := (gmap path node).

Definition TASKS_DIR_NAME : str := ".tasks".

(** [d / name] *)
Definition child (d : path) (name : str) : path := d ++ [name].

(** [p.parent] and [p.name] *)
Definition parent (p : path) : path := removelast p.
Definition name_of (p : path) : str := List.last p [].

(** [str(p)] *)
Definition fspath (p : path) : str := "/" ++ PyStr.join "/" p.

(** [str(e)] for an exception. *)
Definition exn_text (e : exn) : str :=
  match e with
  | ValueError m | ValidationError m | YAMLError m | RuntimeError m => m
  | ParseError p m => fspath p ++ ": " ++ m
  | FileNotFoundError p =>
      "[Errno 2] No such file or directory: '" ++ fspath p ++ "'"
  | FileExistsError p => "[Errno 17] File exists: '" ++ fspath p ++ "'"
  | NotADirectoryError p => "[Errno 20] Not a directory: '" ++ fspath p ++ "'"
  | IsADirectoryError p => "[Errno 21] Is a directory: '" ++ fspath p ++ "'"
  | PermissionError p => "[Errno 13] Permission denied: '" ++ fspath p ++ "'"
  | EOFError => []
  end.

Definition exists_ (fs : fsys) (p : path) : bool :=
  match fs !! p with Some _ => true | None => false end.

Definition is_dir (fs : fsys) (p : path) : bool :=
  match fs !! p with Some (Dir _) => true | _ => false end.

Definition is_file (fs : fsys) (p : path) : bool :=
  match fs !! p with Some (File _) => true | _ => false end.

(** The entries of the directory [d], in the order of the listing. *)
Definition entries (fs : fsys) (d : path) : list path :=
  filter (fun p => p <> [] /\ parent p = d) (map_to_list fs).*1.

(** [d.iterdir()] *)
Definition iterdir (fs : fsys) (d : path) : result (list path) :=
  match fs !! d with
  | None => Raise (FileNotFoundError d)
  | Some (File _) => Raise (NotADirectoryError d)
  | Some (Dir false) => Raise (PermissionError d)
  | Some (Dir true) => Ok (entries fs d)
  end.

(** [stat] of a path fails with [PermissionError] when a directory on the
    way to it denies search (it has no x permission); [denied] tells which
    directories do.  scan.py is the module that guards against this error,
    and it is modelled with it: [p.is_dir()], [p.is_file()] and
    [d.iterdir()] as scan.py calls them are [stat_is_dir], [stat_is_file] and
    [scandir]. *)
Definition blocked (denied : path -> bool) (p : path) : bool :=
  existsb (fun k => denied (take k p)) (seq 0 (length p)).

Definition stat_is_dir (fs : fsys) (denied : path -> bool) (p : path)
    : result bool :=
  if blocked denied p then Raise (PermissionError p) else Ok (is_dir fs p).

Definition stat_is_file (fs : fsys) (denied : path -> bool) (p : path)
    : result bool :=
  if blocked denied p then Raise (PermissionError p) else Ok (is_file fs p).

Definition scandir (fs : fsys) (denied : path -> bool) (d : path)
    : result (list path) :=
  if blocked denied d then Raise (PermissionError d) else iterdir fs d.

(** Text files are read with universal newlines: CR LF and CR become LF. *)
Fixpoint universal_newlines_from (after_cr : bool) (s : str) : str :=
  match s with
  | [] => []
  | c :: r =>
      if Ascii.eqb c "013" then "010"%char :: universal_newlines_from true r
      else if after_cr && Ascii.eqb c "010" then
        universal_newlines_from false r
      else c :: universal_newlines_from false r
  end.

Definition universal_newlines : str -> str := universal_newlines_from false.

(** [p.read_text(encoding="utf-8")] *)
Definition read_text (fs : fsys) (p : path) : result str :=
  match fs !! p with
  | None => Raise (FileNotFoundError p)
  | Some (Dir _) => Raise (IsADirectoryError p)
  | Some (File text) => Ok (universal_newlines text)
  end.

(** [p.write_text(text, encoding="utf-8")] *)
Definition write_text (fs : fsys) (p : path) (text : str) : result fsys :=
  match fs !! p with
  | Some (Dir _) => Raise (IsADirectoryError p)
  | Some (File _) => Ok (<[p := File text]> fs)
  | None =>
      match fs !! parent p with
      | None => Raise (FileNotFoundError p)
      | Some (File _) => Raise (NotADirectoryError p)
      | Some (Dir _) => Ok (<[p := File text]> fs)
      end
  end.

(** [p.unlink()] *)
Definition unlink (fs : fsys) (p : path) : result fsys :=
  match fs !! p with
  | None => Raise (FileNotFoundError p)
  | Some (Dir _) => Raise (IsADirectoryError p)
  | Some (File _) => Ok (delete p fs)
  end.

(** [os.mkdir(p)] *)
Definition os_mkdir (fs : fsys) (p : path) : result fsys :=
  match fs !! p with
  | Some _ => Raise (FileExistsError p)
  | None =>
      match p, fs !! parent p with
      | [], _ => Raise (FileNotFoundError p)
      | _, None => Raise (FileNotFoundError p)
      | _, Some (File _) => Raise (NotADirectoryError p)
      | _, Some (Dir _) => Ok (<[p := Dir true]> fs)
      end
  end.

(** [p.mkdir(parents=parents, exist_ok=exist_ok)]; the recursion on the
    parents is bounded by the length of the path. *)
Fixpoint mkdir_from (fuel : nat) (fs : fsys) (p : path)
    (parents exist_ok : bool) : result fsys :=
  match os_mkdir fs p with
  | Ok fs' => Ok fs'
  | Raise (FileNotFoundError q) =>
      match fuel with
      | O => Raise (FileNotFoundError q)
      | S fuel' =>
          if negb parents || bool_decide (parent p = p) then
            Raise (FileNotFoundError q)
          else
            fs1 ← mkdir_from fuel' fs (parent p) true true;
            mkdir_from fuel' fs1 p false exist_ok
      end
  | Raise e =>
      if negb exist_ok || negb (is_dir fs p) then Raise e else Ok fs
  end.

Definition mkdir (fs : fsys) (p : path) (parents exist_ok : bool)
    : result fsys :=
  mkdir_from (S (length p)) fs p parents exist_ok.

(** What the engine takes from its environment: the file system, the lines
    still to be read from standard input, and the current date. *)
Record world := mkWorld {
  w_fs : fsys;
  w_stdin : list str;
  w_today : date;
}.

Definition io : Type -> Type := st world.

(** A file-system operation as a step of an [io] computation. *)
Definition on_fs (op : fsys -> result fsys) : io unit := fun w =>
  match op (w_fs w) with
  | Ok fs' => (Ok tt, mkWorld fs' (w_stdin w) (w_today w))
  | Raise e => (Raise e, w)
  end.

(** [input(prompt)]: the next line of standard input, or [EOFError]. *)
Definition input (prompt : str) : io str := fun w =>
  match w_stdin w with
  | [] => (Raise EOFError, w)
  | line :: rest => (Ok line, mkWorld (w_fs w) rest (w_today w))
  end.

(** [date.today()] *)
Definition date_today : io date := fun w => (Ok (w_today w), w).

(* ===================================================================== *)
(** * model.py *)
(* ===================================================================== *)

Module Model.

Inductive Status := ACTIVE | WAITING | PAUSED | DONE.

(** [status.value] *)
Definition Status_value (s : Status) : str :=
  match s with
  | ACTIVE => "active"
  | WAITING => "waiting"
  | PAUSED => "paused"
  | DONE => "done"
  end.

(** [Status(raw)]: lookup by value; [None] is [ValueError]. *)
Definition Status_of_value (raw : str) : option Status :=
  if PyStr.eqb raw "active" then Some ACTIVE
  else if PyStr.eqb raw "waiting" then Some WAITING
  else if PyStr.eqb raw "paused" then Some PAUSED
  else if PyStr.eqb raw "done" then Some DONE
  else None.

Definition is_DONE (s : Status) : bool :=
  match s with DONE => true | _ => false end.

Definition sort_key (s : Status) : Z :=
  match s with
  | ACTIVE => 0
  | WAITING => 1
  | PAUSED => 2
  | DONE => 3
  end.

Record Link := mkLink { kind : str; value : str }.

Record Task := mkTask {
  task_id : str;
  title : str;
  status : Status;
  created : date;
  last_touch : date;
  next_action : str;
  summary : str;
  log_lines : list str;
  links : list Link;
  format_version : Z;
}.

(** [Task.validate] *)
Definition validate (self : Task) : result unit :=
  if negb (PyStr.truthy (task_id self))
     || negb (PyStr.truthy (PyStr.strip (task_id self))) then
    Raise (ValueError "task_id must be a non-empty string")
  else if negb (PyStr.truthy (title self))
          || negb (PyStr.truthy (PyStr.strip (title self))) then
    Raise (ValueError "title must be a non-empty string")
  else if Date.ltb (last_touch self) (created self) then
    Raise (ValueError "created must be <= last_touch")
  else
    let na := PyStr.strip (next_action self) in
    if is_DONE (status self) then
      if PyStr.truthy na then
        Raise (ValueError "next_action must be empty when status is 'done'")
      else Ok tt
    else
      if negb (PyStr.truthy na) then
        Raise (ValueError
                 "next_action must be non-empty unless status is 'done'")
      else Ok tt.

Record Project := mkProject { root_dir : path; tasks_dir : path }.

(** [Task.is_done] and [Task.status_rank] *)
Definition is_done (self : Task) : bool := is_DONE (status self).

Definition status_rank (self : Task) : Z := sort_key (status self).

(** The key of [sort_tasks], and the order of such tuples: the order of the
    first components that differ. *)
Definition task_key (t : Task) : Z * date * str :=
  (status_rank t, last_touch t, task_id t).

Definition key_ltb (a b : Z * date * str) : bool :=
  let '(ra, da, ia) := a in
  let '(rb, db, ib) := b in
  if negb (ra =? rb) then ra <? rb
  else if negb (bool_decide (da = db)) then Date.ltb da db
  else PyStr.ltb ia ib.

(** [sort_tasks(tasks)] *)
Definition sort_tasks (tasks : list Task) : list Task :=
  sorted key_ltb task_key tasks.

End Model.

(* ===================================================================== *)
(** * scan.py *)
(* ===================================================================== *)

Module Scan.

(** What a generator produces: the values yielded, and the exception that
    ended it, if any. *)
Definition gen (A : Type) : Type := list A * option exn.

(** The loop over the children of a directory: entries that are not
    directories and the task store are passed over; an exception raised by
    [child.is_dir()] or while visiting a child ends the loop. *)
Fixpoint for_children (fs : fsys) (denied : path -> bool)
    (visit : path -> gen Model.Project) (cs : list path)
    : gen Model.Project :=
  match cs with
  | [] => ([], None)
  | c :: rest =>
      match stat_is_dir fs denied c with
      | Raise e => ([], Some e)
      | Ok child_is_dir =>
          if negb child_is_dir then for_children fs denied visit rest
          else if PyStr.eqb (name_of c) TASKS_DIR_NAME then
            for_children fs denied visit rest
          else
            match visit c with
            | (ys, Some e) => (ys, Some e)
            | (ys, None) =>
                let '(zs, r) := for_children fs denied visit rest in
                (ys ++ zs, r)
            end
      end
  end.

(** [walk_dir(d, depth)] inside [iter_projects(root, level)].  The test of
    the task store is outside the [try]: an exception it raises leaves the
    walk of [d]; a [PermissionError] raised by the listing or inside the
    loop, the walks of the children included, ends the loop of [d] and is
    dropped.  [fuel] bounds the depth of the recursion; [level - depth] is
    enough. *)
Fixpoint walk_dir (fs : fsys) (denied : path -> bool) (level : Z)
    (fuel : nat) (d : path) (depth : Z) : gen Model.Project :=
  let tasks_dir := child d TASKS_DIR_NAME in
  match stat_is_dir fs denied tasks_dir with
  | Raise e => ([], Some e)
  | Ok has_store =>
      let here :=
        if has_store then [Model.mkProject d tasks_dir] else [] in
      if depth >=? level then (here, None)
      else
        match fuel with
        | O => (here, None)
        | S fuel' =>
            let looped :=
              match scandir fs denied d with
              | Raise e => ([], Some e)
              | Ok children =>
                  for_children fs denied
                    (fun c => walk_dir fs denied level fuel' c (depth + 1))
                    children
              end in
            match looped with
            | (ys, Some (PermissionError _)) => (here ++ ys, None)
            | (ys, r) => (here ++ ys, r)
            end
        end
  end.

(** [iter_projects(root, level)] *)
Definition iter_projects (fs : fsys) (denied : path -> bool) (root : path)
    (level : Z) : gen Model.Project :=
  if level <? 0 then ([], None)
  else walk_dir fs denied level (Z.to_nat level) root 0.

Record TaskFile := mkTaskFile {
  project : Model.Project;
  task_id : str;
  task_dir : path;
}.

(** The loop of [iter_task_files] over the entries of the store; an
    exception raised by a test ends it. *)
Fixpoint task_files_loop (fs : fsys) (denied : path -> bool)
    (project : Model.Project) (es : list path) : gen TaskFile :=
  match es with
  | [] => ([], None)
  | entry :: rest =>
      match stat_is_dir fs denied entry with
      | Raise e => ([], Some e)
      | Ok entry_is_dir =>
          if negb entry_is_dir then task_files_loop fs denied project rest
          else
            let task_id := name_of entry in
            let task_yml := child entry "task.yml" in
            let task_log := child entry "task.log" in
            match stat_is_file fs denied task_yml with
            | Raise e => ([], Some e)
            | Ok false => task_files_loop fs denied project rest
            | Ok true =>
                match stat_is_file fs denied task_log with
                | Raise e => ([], Some e)
                | Ok false => task_files_loop fs denied project rest
                | Ok true =>
                    let '(found, r) :=
                      task_files_loop fs denied project rest in
                    (mkTaskFile project task_id entry :: found, r)
                end
            end
      end
  end.

(** [iter_task_files(project)]: the test of the store is outside the
    [try]; a [PermissionError] raised by the listing or inside the loop
    ends the loop and is dropped. *)
Definition iter_task_files (fs : fsys) (denied : path -> bool)
    (project : Model.Project) : gen TaskFile :=
  let tasks_dir := Model.tasks_dir project in
  match stat_is_dir fs denied tasks_dir with
  | Raise e => ([], Some e)
  | Ok store_is_dir =>
      if negb store_is_dir then ([], None)
      else
        let looped :=
          match scandir fs denied tasks_dir with
          | Raise e => ([], Some e)
          | Ok es => task_files_loop fs denied project es
          end in
        match looped with
        | (found, Some (PermissionError _)) => (found, None)
        | (found, r) => (found, r)
        end
  end.

End Scan.

(* ===================================================================== *)
(** * parse.py *)
(* ===================================================================== *)

Module Parse.

Import Model.

Definition TASK_YML_NAME : str := "task.yml".
Definition TASK_LOG_NAME : str := "task.log".
Definition SUMMARY_MD_NAME : str := "summary.md".

Definition REQUIRED_FILES : list str := [TASK_YML_NAME; TASK_LOG_NAME].

Definition _require_files (fs : fsys) (task_dir : path) : result unit :=
  let missing :=
    List.filter (fun name => negb (is_file fs (child task_dir name)))
      REQUIRED_FILES in
  match missing with
  | [] => Ok tt
  | _ =>
      Raise (ParseError task_dir
               ("Missing required file(s): " ++ PyStr.join ", " missing))
  end.

Definition _require_str_field (at_path : path) (data : dict) (key : str)
    (allow_empty : bool) : result str :=
  match dict_get data key with
  | None => Raise (ParseError at_path ("Missing required YAML key: " ++ key))
  | Some (YStr value) =>
      if negb allow_empty && negb (PyStr.truthy (PyStr.strip value)) then
        Raise (ParseError at_path
                 ("YAML key '" ++ key ++ "' must be a non-empty string"))
      else Ok value
  | Some _ =>
      Raise (ParseError at_path ("YAML key '" ++ key ++ "' must be a string"))
  end.

(** [isinstance(value, int)] holds of the integers and, [bool] being a
    subclass of [int], of [True] and [False], which count as 1 and 0. *)
Definition _optional_int_field (data : dict) (key : str) (default : Z) : Z :=
  match dict_get data key with
  | None => default
  | Some (YInt n) => n
  | Some (YBool b) => if b then 1 else 0
  | Some _ => default
  end.

Definition _parse_status (at_path : path) (data : dict) : result Status :=
  raw ← _require_str_field at_path data "status" false;
  match Status_of_value (PyStr.lower (PyStr.strip raw)) with
  | Some st => Ok st
  | None =>
      Raise (ParseError at_path
               ("Invalid status '" ++ raw
                ++ "' (allowed: active, waiting, paused, done)"))
  end.

Definition _parse_date (at_path : path) (data : dict) (key : str)
    : result date :=
  match dict_get data key with
  | None => Raise (ParseError at_path ("Missing required YAML key: " ++ key))
  | Some (YDate d) => Ok d
  | Some (YDateTime d _) => Ok d
  | Some (YStr value) =>
      match Date.fromisoformat value with
      | Some d => Ok d
      | None =>
          Raise (ParseError at_path
                   ("Invalid ISO date for '" ++ key ++ "': '" ++ value ++ "'"))
      end
  | Some _ =>
      Raise (ParseError at_path
               ("YAML key '" ++ key ++ "' must be an ISO date string"))
  end.

(** The shorthand of a link given as one string, already stripped and not
    empty: "kind: value", or a bare value. *)
Definition link_shorthand (s : str) : str * str :=
  if PyStr.contains_char ":" (PyStr.first_token s) then
    let '(kind, value) := PyStr.split_once ":" s in
    (PyStr.lower (PyStr.strip kind), PyStr.strip value)
  else ("file" : str, s).

(** The loop of [_parse_links]: [i] is the index of the next item, from
    1, and [out] the links appended so far. *)
Fixpoint parse_links_loop (at_path : path) (i : Z) (items : list yaml)
    (out : list Link) : result (list Link) :=
  match items with
  | [] => Ok out
  | YStr item :: rest =>
      let s := PyStr.strip item in
      if negb (PyStr.truthy s) then parse_links_loop at_path (i + 1) rest out
      else
        let '(kind, value) := link_shorthand s in
        parse_links_loop at_path (i + 1) rest (out ++ [mkLink kind value])
  | YMap item :: rest =>
      match dict_get item "kind", dict_get item "value" with
      | Some (YStr kind), Some (YStr value) =>
          parse_links_loop at_path (i + 1) rest
            (out ++ [mkLink (PyStr.lower (PyStr.strip kind))
                       (PyStr.strip value)])
      | _, _ =>
          Raise (ParseError at_path
                   ("links[" ++ PyStr.str_of_int i
                    ++ "] must have string 'kind' and 'value'"))
      end
  | _ :: _ =>
      Raise (ParseError at_path
               ("links[" ++ PyStr.str_of_int i
                ++ "] must be a mapping {kind, value} or a string"))
  end.

Definition _parse_links (at_path : path) (data : dict) : result (list Link) :=
  match dict_get data "links" with
  | None => parse_links_loop at_path 1 [] []
  | Some YNull => Ok []
  | Some (YList raw) => parse_links_loop at_path 1 raw []
  | Some _ => Raise (ParseError at_path "YAML key 'links' must be a list")
  end.

Definition _parse_task_log (fs : fsys) (p : path) : result (list str) :=
  match read_text fs p with
  | Raise e => Raise (ParseError p ("Cannot read file: " ++ exn_text e))
  | Ok text =>
      let lines :=
        map PyStr.rstrip
          (List.filter (fun raw => PyStr.truthy (PyStr.strip raw))
             (PyStr.splitlines text)) in
      match lines with
      | [] =>
          Raise (ParseError p
                   "Log file is empty (at least one entry is required)")
      | _ => Ok lines
      end
  end.

Definition _read_optional_text (fs : fsys) (p : path) : result str :=
  if negb (exists_ fs p) then Ok []
  else if negb (is_file fs p) then
    Raise (ParseError p "summary.md exists but is not a file")
  else
    match read_text fs p with
    | Raise e => Raise (ParseError p ("Cannot read file: " ++ exn_text e))
    | Ok text => Ok text
    end.

Section WithYAML.
Context `{PyYAML}.

Definition _parse_task_yml (fs : fsys) (p : path) : result dict :=
  match read_text fs p with
  | Raise e => Raise (ParseError p ("Cannot read file: " ++ exn_text e))
  | Ok text =>
      match safe_load text with
      | Raise e => Raise (ParseError p ("Invalid YAML: " ++ exn_text e))
      | Ok loaded =>
          match (if yaml_truthy loaded then loaded else YMap []) with
          | YMap data => Ok data
          | _ => Raise (ParseError p "YAML root must be a mapping/dictionary")
          end
      end
  end.

(** [parse_task(task_dir, expected_task_id)] *)
Definition parse_task (fs : fsys) (d : path) (expected_task_id : option str)
    : result Task :=
  if negb (exists_ fs d) then
    Raise (ParseError d "Task directory does not exist")
  else if negb (is_dir fs d) then
    Raise (ParseError d "Task path is not a directory")
  else
    let yml := child d TASK_YML_NAME in
    _ ← _require_files fs d;
    meta ← _parse_task_yml fs yml;
    log_lines ← _parse_task_log fs (child d TASK_LOG_NAME);
    summary ← _read_optional_text fs (child d SUMMARY_MD_NAME);
    task_id ← _require_str_field yml meta "id" false;
    _ ← match expected_task_id with
        | Some expected =>
            if negb (PyStr.eqb task_id expected) then
              Raise (ParseError yml
                       ("YAML id '" ++ task_id
                        ++ "' does not match expected id '" ++ expected
                        ++ "'"))
            else Ok tt
        | None => Ok tt
        end;
    title ← _require_str_field yml meta "title" false;
    status ← _parse_status yml meta;
    created ← _parse_date yml meta "created";
    last_touch ← _parse_date yml meta "last_touch";
    next_action ← _require_str_field yml meta "next_action" true;
    links ← _parse_links yml meta;
    let format_version := _optional_int_field meta "format" 2 in
    let task :=
      mkTask task_id title status created last_touch next_action
        (PyStr.strip summary) log_lines links format_version in
    _ ← validate task;
    Ok task.

End WithYAML.

End Parse.

(* ===================================================================== *)
(** * ops.py *)
(* ===================================================================== *)

Module Ops.

Import Model.
Export Parse.

Record NewTaskRequest := mkRequest {
  req_title : str;
  req_status : Status;
  req_next_action : str;
  req_summary : str;
  req_links : list str;
}.

(** The class [[^a-z0-9_]] of [_SLUG_RE]. *)
Definition not_slug_char (c : ascii) : bool :=
  negb (PyStr.islower c || PyStr.isdigit c || Ascii.eqb c "_").

Definition slugify (title : str) : str :=
  let s := PyStr.lower (PyStr.strip title) in
  let s := PyStr.sub_runs PyStr.isspace s in
  let s := PyStr.sub_runs not_slug_char s in
  let s :=
    PyStr.strip_with (Ascii.eqb "_") (PyStr.sub_runs (Ascii.eqb "_") s) in
  if PyStr.truthy s then s else "task".

(** One turn of the loop of [next_task_seq] over the entry [p]. *)
Definition seq_step (fs : fsys) (prefix : str) (best : Z) (p : path) : Z :=
  if negb (is_dir fs p) then best
  else
    let name := name_of p in
    if negb (PyStr.startswith name prefix) then best
    else
      let parts := PyStr.split_max 2 "__" name in
      if (length parts <? 2)%nat then best
      else
        match PyStr.int_of_str (nth 1 parts []) with
        | None => best
        | Some n => if n >? best then n else best
        end.

Definition next_task_seq (fs : fsys) (tasks_dir : path) (created : date)
    : result Z :=
  let prefix := Date.isoformat created ++ "__" in
  if negb (is_dir fs tasks_dir) then Ok 1
  else
    ps ← iterdir fs tasks_dir;
    Ok (fold_left (seq_step fs prefix) ps 0 + 1).

Definition ensure_tasks_dir (cwd : path) (interactive : bool) : io path :=
  let tasks_dir := child cwd TASKS_DIR_NAME in
  w ← get;
  if is_dir (w_fs w) tasks_dir then mret tasks_dir
  else if negb interactive then
    _ ← on_fs (fun fs => mkdir fs tasks_dir true true);
    mret tasks_dir
  else
    line ← input "No .tasks found in this directory. Create ./.tasks here? [Y/n] ";
    let ans := PyStr.lower (PyStr.strip line) in
    if PyStr.eqb ans "" || PyStr.eqb ans "y" || PyStr.eqb ans "yes" then
      _ ← on_fs (fun fs => mkdir fs tasks_dir true true);
      mret tasks_dir
    else raise (RuntimeError "Aborted (no .tasks created)").

Definition link_entry (ln : Link) : yaml :=
  YMap [("kind" : str, YStr (kind ln)); ("value" : str, YStr (value ln))].

(** The mapping built by [_render_task_yml], in the order of its keys. *)
Definition task_yml_data (task_id title : str) (status : Status)
    (created_s last_touch_s next_action : str) (links : list Link)
    (format_version : Z) : yaml :=
  YMap [("id" : str, YStr task_id);
        ("title" : str, YStr title);
        ("status" : str, YStr (Status_value status));
        ("created" : str, YStr created_s);
        ("last_touch" : str, YStr last_touch_s);
        ("next_action" : str, YStr next_action);
        ("format" : str, YInt format_version);
        ("links" : str, YList (map link_entry links))].

(** The loop of [_normalise_links] over the raw strings. *)
Fixpoint normalise_links_loop (raw_links : list str) (out : list Link)
    : list Link :=
  match raw_links with
  | [] => out
  | raw :: rest =>
      let s := PyStr.strip raw in
      if negb (PyStr.truthy s) then normalise_links_loop rest out
      else
        let '(kind, value) := link_shorthand s in
        let kind := if negb (PyStr.truthy kind) then ("file" : str) else kind in
        normalise_links_loop rest (out ++ [mkLink kind value])
  end.

Definition _normalise_links (raw_links : list str) : list Link :=
  normalise_links_loop raw_links [].

Definition NL : str := ["010"%char].

Section WithYAML.
Context `{PyYAML}.

Definition _render_task_yml (task_id title : str) (status : Status)
    (created_s last_touch_s next_action : str) (links : list Link)
    (format_version : Z) : str :=
  safe_dump
    (task_yml_data task_id title status created_s last_touch_s next_action
       links format_version).

(** [create_task(cwd, req, interactive=interactive)] *)
Definition create_task (cwd : path) (req : NewTaskRequest)
    (interactive : bool) : io path :=
  tasks_dir ← ensure_tasks_dir cwd interactive;
  created ← date_today;
  w ← get;
  match next_task_seq (w_fs w) tasks_dir created with
  | Raise e => raise e
  | Ok seq =>
      let slug := slugify (req_title req) in
      let task_id :=
        Date.isoformat created ++ "__" ++ PyStr.format_0d 3 seq ++ "__"
        ++ slug in
      let task_dir := child tasks_dir task_id in
      _ ← on_fs (fun fs => mkdir fs task_dir true false);
      let status := req_status req in
      let next_action := PyStr.strip (req_next_action req) in
      let next_action := if is_DONE status then [] else next_action in
      let created_s := Date.isoformat created in
      _ ← on_fs (fun fs =>
             write_text fs (child task_dir TASK_YML_NAME)
               (_render_task_yml task_id (req_title req) status created_s
                  created_s next_action (_normalise_links (req_links req))
                  2));
      let log_lines := [created_s ++ ": [created]"] in
      let log_lines :=
        if is_DONE status then log_lines ++ [created_s ++ ": [done]"]
        else log_lines in
      _ ← on_fs (fun fs =>
             write_text fs (child task_dir TASK_LOG_NAME)
               (PyStr.join NL log_lines ++ NL));
      let summary := PyStr.rstrip (req_summary req) in
      _ ← (if PyStr.truthy summary then
             on_fs (fun fs =>
                      write_text fs (child task_dir SUMMARY_MD_NAME)
                        (summary ++ NL))
           else mret tt);
      mret task_dir
  end.

(** [write_task(task_dir, task)] *)
Definition write_task (d : path) (task : Task) : io unit :=
  w ← get;
  if negb (is_dir (w_fs w) d) then raise (FileNotFoundError d)
  else
    _ ← on_fs (fun fs =>
           write_text fs (child d TASK_YML_NAME)
             (_render_task_yml (task_id task) (title task) (status task)
                (Date.isoformat (created task))
                (Date.isoformat (last_touch task)) (next_action task)
                (map (fun ln => mkLink (kind ln) (value ln)) (links task))
                2));
    let log_text :=
      PyStr.rstrip
        (PyStr.join NL
           (map PyStr.rstrip
              (List.filter (fun ln => PyStr.truthy (PyStr.strip ln))
                 (log_lines task))))
      ++ NL in
    _ ← on_fs (fun fs => write_text fs (child d TASK_LOG_NAME) log_text);
    let summary_path := child d SUMMARY_MD_NAME in
    let summary := PyStr.rstrip (summary task) in
    if PyStr.truthy summary then
      on_fs (fun fs => write_text fs summary_path (summary ++ NL))
    else
      w ← get;
      if exists_ (w_fs w) summary_path then
        on_fs (fun fs => unlink fs summary_path)
      else mret tt.

End WithYAML.

End Ops.

(* ===================================================================== *)
(** * validate.py *)
(* ===================================================================== *)

Module Validate.

Import Model.

Record ValidationIssue := mkIssue { code : str; message : str }.

Record ValidationResult := mkValidationResult {
  vr_path : path;
  issues : list ValidationIssue;
}.


(** Regular expressions over character classes, matched by derivatives. *)
Inductive regex :=
| Never
| Eps
| Class (p : ascii -> bool)
| Cat (a b : regex)
| Alt (a b : regex)
| Star (a : regex).

Fixpoint nullable (r : regex) : bool :=
  match r with
  | Never => false
  | Eps => true
  | Class _ => false
  | Cat a b => nullable a && nullable b
  | Alt a b => nullable a || nullable b
  | Star _ => true
  end.

Fixpoint deriv (c : ascii) (r : regex) : regex :=
  match r with
  | Never => Never
  | Eps => Never
  | Class p => if p c then Eps else Never
  | Cat a b =>
      if nullable a then Alt (Cat (deriv c a) b) (deriv c b)
      else Cat (deriv c a) b
  | Alt a b => Alt (deriv c a) (deriv c b)
  | Star a => Cat (deriv c a) (Star a)
  end.

(** The whole of [s] is in the language of [r]. *)
Definition fullmatch (r : regex) (s : str) : bool :=
  nullable (fold_left (fun r c => deriv c r) s r).

Definition Lit (c : ascii) : regex := Class (Ascii.eqb c).
Definition Plus (r : regex) : regex := Cat r (Star r).
Definition Opt (r : regex) : regex := Alt Eps r.
Fixpoint Times (n : nat) (r : regex) : regex :=
  match n with
  | O => Eps
  | S k => Cat r (Times k r)
  end.

(** [^\d{4}-\d{2}-\d{2}:\s+\[[a-z_]+\](?:\s+.+)?$]; the final [$] also
    matches before a newline that ends the text. *)
Definition _LOG_LINE_RE : regex :=
  let d := Class PyStr.isdigit in
  let s := Class PyStr.isspace in
  let tag := Class (fun c => PyStr.islower c || Ascii.eqb c "_") in
  let dot := Class (fun c => negb (Ascii.eqb c "010")) in
  Cat (Times 4 d) (Cat (Lit "-") (Cat (Times 2 d) (Cat (Lit "-")
  (Cat (Times 2 d) (Cat (Lit ":") (Cat (Plus s) (Cat (Lit "[")
  (Cat (Plus tag) (Cat (Lit "]")
  (Cat (Opt (Cat (Plus s) (Plus dot))) (Opt (Lit "010")))))))))))).

(** [_LOG_LINE_RE.match(s)] *)
Definition log_line_matches (s : str) : bool := fullmatch _LOG_LINE_RE s.

Definition _has_done_marker (log_lines : list str) : bool :=
  existsb
    (fun line =>
       let s := PyStr.lower (PyStr.strip line) in
       PyStr.truthy s && PyStr.contains "[done]" s)
    (rev log_lines).

Definition allowed_kind (k : str) : bool :=
  PyStr.eqb k "file" || PyStr.eqb k "url" || PyStr.eqb k "note".

Definition _validate_link_basic (link : Link) (issues : list ValidationIssue)
    (idx : Z) : list ValidationIssue :=
  let kind := PyStr.lower (PyStr.strip (kind link)) in
  let value := PyStr.strip (value link) in
  let issues :=
    if negb (allowed_kind kind) then
      issues ++
      [mkIssue "link_kind_invalid"
         ("Link " ++ PyStr.str_of_int idx ++ ": invalid kind '"
          ++ Model.kind link ++ "' (allowed: file, url, note)")]
    else issues in
  if negb (PyStr.truthy value) then
    issues ++
    [mkIssue "link_value_empty"
       ("Link " ++ PyStr.str_of_int idx ++ ": empty value")]
  else issues.

(** [s.split("/")] *)
Fixpoint split_slash (cur : str) (s : str) : list str :=
  match s with
  | [] => [rev cur]
  | c :: r =>
      if Ascii.eqb c "/" then rev cur :: split_slash [] r
      else split_slash (c :: cur) r
  end.

(** [root / rel] for a string [rel]: an absolute [rel] replaces [root];
    empty components and "." are dropped. *)
Definition joinpath (root : path) (rel : str) : path :=
  let parts :=
    List.filter (fun c => negb (PyStr.eqb c "" || PyStr.eqb c "."))
      (split_slash [] rel) in
  if PyStr.startswith rel "/" then parts else root ++ parts.

(** [p.resolve()]: the components are taken in order, [acc] being the
    resolved path so far, last component first; ".." steps back to the
    parent, and stays at the root. *)
Definition resolve_step (acc : path) (c : str) : path :=
  if PyStr.eqb c "" || PyStr.eqb c "." then acc
  else if PyStr.eqb c ".." then tl acc
  else c :: acc.

Definition resolve (p : path) : path := rev (fold_left resolve_step p []).

(** [target.relative_to(root)] succeeds. *)
Definition is_relative_to (target root : path) : bool :=
  bool_decide (root `prefix_of` target).

Definition outside_issue (rel : str) : ValidationIssue :=
  mkIssue "link_file_outside_project"
    ("File link points outside project root: " ++ rel).

Definition missing_issue (rel : str) : ValidationIssue :=
  mkIssue "link_file_missing" ("Missing linked file: " ++ rel).

Fixpoint check_links_loop (fs : fsys) (root : path) (links : list Link)
    (issues : list ValidationIssue) : list ValidationIssue :=
  match links with
  | [] => issues
  | link :: rest =>
      if negb (PyStr.eqb (PyStr.lower (PyStr.strip (kind link))) "file") then
        check_links_loop fs root rest issues
      else
        let rel := PyStr.strip (value link) in
        let target := resolve (joinpath root rel) in
        if negb (is_relative_to target root) then
          check_links_loop fs root rest (issues ++ [outside_issue rel])
        else if negb (exists_ fs target) then
          check_links_loop fs root rest (issues ++ [missing_issue rel])
        else check_links_loop fs root rest issues
  end.

Definition _check_file_links_exist (fs : fsys) (links : list Link)
    (project_root : path) (issues : list ValidationIssue)
    : list ValidationIssue :=
  let root := resolve project_root in
  check_links_loop fs root links issues.

Fixpoint log_format_loop (i : Z) (lines : list str)
    (issues : list ValidationIssue) : list ValidationIssue :=
  match lines with
  | [] => issues
  | line :: rest =>
      let s := PyStr.strip line in
      if negb (PyStr.truthy s) then log_format_loop (i + 1) rest issues
      else if negb (log_line_matches s) then
        log_format_loop (i + 1) rest
          (issues ++
           [mkIssue "log_bad_format"
              ("Log line " ++ PyStr.str_of_int i
               ++ " must match 'YYYY-MM-DD: [type] comment'")])
      else log_format_loop (i + 1) rest issues
  end.

Fixpoint link_basic_loop (i : Z) (links : list Link)
    (issues : list ValidationIssue) : list ValidationIssue :=
  match links with
  | [] => issues
  | link :: rest =>
      link_basic_loop (i + 1) rest (_validate_link_basic link issues i)
  end.

(** [validate_task_file(task, task_dir, expected_task_id=...,
    check_links=..., project_root=...)] *)
Definition validate_task_file (fs : fsys) (task : Task) (task_dir : path)
    (expected_task_id : option str) (check_links : bool)
    (project_root : option path) : ValidationResult :=
  let issues : list ValidationIssue := [] in
  let issues :=
    match expected_task_id with
    | Some expected =>
        if negb (PyStr.eqb (task_id task) expected) then
          issues ++
          [mkIssue "id_mismatch"
             ("Task id '" ++ task_id task ++ "' does not match expected id '"
              ++ expected ++ "'")]
        else issues
    | None => issues
    end in
  let issues :=
    match validate task with
    | Raise e => issues ++ [mkIssue "model_invariant" (exn_text e)]
    | Ok _ => issues
    end in
  let issues :=
    match log_lines task with
    | [] =>
        issues ++
        [mkIssue "log_empty"
           "Log section is empty (at least one entry is required)"]
    | _ => log_format_loop 1 (log_lines task) issues
    end in
  let issues :=
    if is_DONE (status task)
       && (match log_lines task with [] => false | _ => true end)
       && negb (_has_done_marker (log_lines task)) then
      issues ++
      [mkIssue "done_no_marker"
         "Done tasks must include a closing log entry containing '[done]'"]
    else issues in
  let issues := link_basic_loop 1 (links task) issues in
  let issues :=
    if check_links then
      match project_root with
      | None =>
          issues ++
          [mkIssue "links_need_project_root"
             "check_links requires project_root to resolve relative file links"]
      | Some root => _check_file_links_exist fs (links task) root issues
      end
    else issues in
  mkValidationResult task_dir issues.

End Validate.

(* ===================================================================== *)
(** * actions.py *)
(* ===================================================================== *)

Module Actions.

Import Model.

(** An action works on the task it was given and on the environment. *)
Definition act : Type -> Type := st (Task * world).

Definition lift {A} (m : io A) : act A := fun s =>
  let '(r, w) := m (snd s) in (r, (fst s, w)).

Definition the_task : act Task := fun s => (Ok (fst s), s).

Definition update_task (f : Task -> Task) : act unit := fun s =>
  (Ok tt, (f (fst s), snd s)).

Definition set_next_action_field (v : str) (t : Task) : Task :=
  mkTask (task_id t) (title t) (status t) (created t) (last_touch t) v
    (summary t) (log_lines t) (links t) (format_version t).


Definition set_last_touch_field (v : date) (t : Task) : Task :=
  mkTask (task_id t) (title t) (status t) (created t) v (next_action t)
    (summary t) (log_lines t) (links t) (format_version t).

Definition append_log_line (line : str) (t : Task) : Task :=
  mkTask (task_id t) (title t) (status t) (created t) (last_touch t)
    (next_action t) (summary t) (log_lines t ++ [line]) (links t)
    (format_version t).

Definition _today : act date := lift date_today.

Definition _require_non_empty (value : option str) (prompt : str) : act str :=
  let given := match value with Some v => v | None => [] end in
  if PyStr.truthy given && PyStr.truthy (PyStr.strip given) then
    mret (PyStr.strip given)
  else
    fun s =>
      match lift (input (prompt ++ ": ")) s with
      | (Raise EOFError, s') =>
          (Raise (ValidationError (prompt ++ " is required")), s')
      | (Raise e, s') => (Raise e, s')
      | (Ok line, s') =>
          let value := PyStr.strip line in
          if negb (PyStr.truthy value) then
            (Raise (ValidationError (prompt ++ " is required")), s')
          else (Ok value, s')
      end.

Definition _append_log (entry : str) : act unit :=
  today ← _today;
  _ ← update_task (append_log_line (Date.isoformat today ++ ": " ++ entry));
  update_task (set_last_touch_field today).

Definition _parse_status (raw : str) : act Status :=
  match Status_of_value raw with
  | Some st => mret st
  | None => raise (ValidationError ("Unknown status: " ++ raw))
  end.

Section WithYAML.
Context `{PyYAML}.

Definition _write (task_dir : path) : act unit :=
  task ← the_task;
  lift (Ops.write_task task_dir task).


Definition set_next_action (task_dir : path)
    (next_action message : option str) : act unit :=
  task ← the_task;
  if is_DONE (Model.status task) then
    raise (ValidationError "Cannot set next action on done task")
  else
    msg ← _require_non_empty message "Message";
    na ← _require_non_empty next_action "Next action";
    _ ← update_task (set_next_action_field na);
    _ ← _append_log ("[next] " ++ na ++ " - " ++ msg);
    _write task_dir.


End WithYAML.

End Actions.

(* ===================================================================== *)
(** * The vocabulary of the specification *)
(* ===================================================================== *)

(** A string is blank when it is empty after trimming. *)
Definition blank (s : str) : Prop := PyStr.strip s = [].

Section Vocabulary.
Import Model Parse Ops.

(** The invariant that [Task.validate] enforces, as the specification words
    it. *)
Definition task_invariant (t : Task) : Prop :=
  ~ blank (task_id t) /\ ~ blank (title t)
  /\ Date.le (created t) (last_touch t)
  /\ (status t = DONE -> blank (next_action t))
  /\ (status t <> DONE -> ~ blank (next_action t)).

(** The task of a result. *)
Definition task_of (r : result Task) : option Task :=
  match r with
  | Ok t => Some t
  | Raise _ => None
  end.

(** The links of a result, whatever the message of the error. *)
Definition links_of (r : result (list Link)) : option (list Link) :=
  match r with
  | Ok l => Some l
  | Raise _ => None
  end.

(** What the specification says of a string entry: split on the first colon
    of the string, the whole string when it has none. *)
Definition shorthand_as_specified (s : str) : Link :=
  if PyStr.contains_char ":" s then
    let '(k, v) := PyStr.split_once ":" s in
    mkLink (PyStr.lower (PyStr.strip k)) v
  else mkLink "file" s.

(** The second segment of a name split on "__" (at most two splits), read
    as an integer; [None] when it is not numeric. *)
Definition second_segment (name : str) : option Z :=
  match PyStr.split_max 2 "__" name with
  | _ :: seg :: _ => PyStr.int_of_str seg
  | _ => None
  end.

(** [name] is the name of a subdirectory of the store that counts for the
    date [created], with the sequence number [n]. *)
Definition numbered (fs : fsys) (tasks_dir : path) (created : date)
    (name : str) (n : Z) : Prop :=
  is_dir fs (child tasks_dir name) = true
  /\ PyStr.startswith name (Date.isoformat created ++ "__") = true
  /\ second_segment name = Some n.

(** The number that an entry of the store contributes, if any. *)
Definition entry_number (fs : fsys) (created : date) (p : path) : option Z :=
  if is_dir fs p
     && PyStr.startswith (name_of p) (Date.isoformat created ++ "__")
  then second_segment (name_of p) else None.

(** What the specification says: one more than the largest number, 1 when
    there is none.  [ns] are the numbers of the store. *)
Definition seq_as_specified (ns : list Z) : Z :=
  match ns with
  | [] => 1
  | n :: rest => fold_right Z.max n rest + 1
  end.

Definition neg_store : fsys :=
  <[ ["p" : str; ".tasks" : str; "2024-01-01__-5__a" : str] := Dir true ]>
  (<[ ["p" : str; ".tasks" : str] := Dir true ]>
  (<[ ["p" : str] := Dir true ]> (<[ [] := Dir true ]> ∅))).

Definition example_store : fsys :=
  <[ ["p" : str; ".tasks" : str; "2024-01-01__001__a" : str] := Dir true ]>
  (<[ ["p" : str; ".tasks" : str; "2024-01-01__003__b" : str] := Dir true ]>
  (<[ ["p" : str; ".tasks" : str; "2024-01-01__xyz__c" : str] := Dir true ]>
  (<[ ["p" : str; ".tasks" : str] := Dir true ]>
  (<[ ["p" : str] := Dir true ]> (<[ [] := Dir true ]> ∅))))).


(** The project of the directory [d]. *)
Definition project_of (d : path) : Project :=
  mkProject d (child d TASKS_DIR_NAME).


(** The same without the condition that the directories on the way can be
    listed, as the specification words it. *)
Fixpoint descends_as_specified (fs : fsys) (d : path) (names : list str)
    : Prop :=
  match names with
  | [] => True
  | n :: rest =>
      n <> TASKS_DIR_NAME /\ is_dir fs (child d n) = true
      /\ descends_as_specified fs (child d n) rest
  end.

Definition project_as_specified (fs : fsys) (root : path) (level : Z)
    (p : Project) : Prop :=
  exists names,
    p = project_of (root ++ names)
    /\ Z.of_nat (length names) <= level
    /\ is_dir fs (child (root ++ names) TASKS_DIR_NAME) = true
    /\ descends_as_specified fs root names.

(** A tree with task stores at depth 0 and at depth 2. *)
Definition two_projects : fsys :=
  <[ ["r" : str; ".tasks" : str] := Dir true ]>
  (<[ ["r" : str; "a" : str; "b" : str; ".tasks" : str] := Dir true ]>
  (<[ ["r" : str; "a" : str; "b" : str] := Dir true ]>
  (<[ ["r" : str; "a" : str] := Dir true ]>
  (<[ ["r" : str] := Dir true ]> (<[ [] := Dir true ]> ∅))))).

(** The same tree where the directory at depth 1 cannot be listed. *)
Definition unlistable : fsys :=
  <[ ["r" : str; "a" : str] := Dir false ]> two_projects.

(** Every directory can be searched. *)
Definition searchable : path -> bool := fun _ => false.

(** A tree with a project at depth 1 beside a directory without any
    permission (mode 000): it can be neither listed nor searched. *)
Definition locked_sibling : fsys :=
  <[ ["r" : str; "d" : str; ".tasks" : str] := Dir true ]>
  (<[ ["r" : str; "d" : str] := Dir true ]>
  (<[ ["r" : str; "a" : str] := Dir false ]>
  (<[ ["r" : str] := Dir true ]> (<[ [] := Dir true ]> ∅)))).

Definition locked : path -> bool :=
  fun p => bool_decide (p = ["r" : str; "a" : str]).

(** A link of kind "file", whatever the case and the blanks around the
    kind. *)
Definition is_file_link (l : Link) : bool :=
  PyStr.eqb (PyStr.lower (PyStr.strip (kind l))) "file".

(** The value of a link as a path: trimmed, taken relative to the resolved
    project root, and resolved. *)
Definition link_target (project_root : path) (l : Link) : path :=
  Validate.resolve
    (Validate.joinpath (Validate.resolve project_root)
       (PyStr.strip (value l))).

(** The target of a link lies outside the project root. *)
Definition outside_project (project_root : path) (l : Link) : bool :=
  negb (Validate.is_relative_to (link_target project_root l)
          (Validate.resolve project_root)).

(** What the link [l] adds to the issues of the check of file links. *)
Definition contribution (fs : fsys) (project_root : path) (l : Link)
    : list Validate.ValidationIssue :=
  if negb (is_file_link l) then []
  else if outside_project project_root l then
    [Validate.outside_issue (PyStr.strip (value l))]
  else if negb (exists_ fs (link_target project_root l)) then
    [Validate.missing_issue (PyStr.strip (value l))]
  else [].

(** A project with one file. *)
Definition small_project : fsys :=
  <[ ["proj" : str; "notes.txt" : str] := File "notes" ]>
  (<[ ["proj" : str] := Dir true ]> (<[ [] := Dir true ]> ∅)).

(** The characters of a date in ISO format are digits and dashes. *)
Definition date_char (c : ascii) : Prop :=
  PyStr.isdigit c = true \/ c = "-"%char.

(** In a well-formed file system, what exists lies in a directory. *)
Definition fs_wf (fs : fsys) : Prop :=
  forall p : path,
    p <> [] -> is_Some (fs !! p) -> is_dir fs (parent p) = true.

(** What a creation request has to satisfy: a title and, unless the task is
    created done, a next action that are not blank, as the command line
    checks before it calls [create_task]; and a summary without carriage
    returns, since text is read back with universal newlines. *)
Definition creation_preconditions (req : NewTaskRequest) : Prop :=
  ~ blank (req_title req)
  /\ (req_status req <> DONE -> ~ blank (req_next_action req))
  /\ Forall (fun c => Ascii.eqb c "013" = false) (req_summary req).

(** The preconditions without the condition on the summary, as the
    specification has them. *)
Definition preconditions_as_specified (req : NewTaskRequest) : Prop :=
  ~ blank (req_title req)
  /\ (req_status req <> DONE -> ~ blank (req_next_action req)).

(** The id that [create_task] gives the task created on [today] under the
    sequence number [seq]. *)
Definition generated_id (today : date) (seq : Z) (title : str) : str :=
  Date.isoformat today ++ "__" ++ PyStr.format_0d 3 seq ++ "__"
  ++ slugify title.

(** The first lines of the log. *)
Definition initial_log (today : date) (status : Status) : list str :=
  if is_DONE status then
    [Date.isoformat today ++ ": [created]"; Date.isoformat today ++ ": [done]"]
  else [Date.isoformat today ++ ": [created]"].

(** The next action of a new task: none when it is created done. *)
Definition initial_next_action (req : NewTaskRequest) : str :=
  if is_DONE (req_status req) then [] else PyStr.strip (req_next_action req).

(** The task that a request implies, created on [today] under the id
    [id]. *)
Definition implied_task (req : NewTaskRequest) (today : date) (id : str)
    : Task :=
  mkTask id (req_title req) (req_status req) today today
    (initial_next_action req) (PyStr.strip (req_summary req))
    (initial_log today (req_status req)) (_normalise_links (req_links req)) 2.

(** The document that [create_task] renders into task.yml. *)
Definition implied_document (req : NewTaskRequest) (today : date) (id : str)
    : yaml :=
  task_yml_data id (req_title req) (req_status req) (Date.isoformat today)
    (Date.isoformat today) (initial_next_action req)
    (_normalise_links (req_links req)) 2.

(** A link in normal form: parsing its rendering gives it back. *)
Definition normal_link (l : Link) : Prop :=
  PyStr.lower (PyStr.strip (kind l)) = kind l
  /\ PyStr.strip (value l) = value l.

End Vocabulary.

Section VocabularyYAML.
Context `{PyYAML}.
Import Model Parse Ops.

(** The text that [write_task] writes to task.yml and to task.log. *)
Definition yml_text (task : Task) : str :=
  _render_task_yml (task_id task) (title task) (status task)
    (Date.isoformat (created task)) (Date.isoformat (last_touch task))
    (next_action task)
    (map (fun ln => mkLink (kind ln) (value ln)) (links task)) 2.

Definition log_text (task : Task) : str :=
  PyStr.rstrip
    (PyStr.join NL
       (map PyStr.rstrip
          (List.filter (fun ln => PyStr.truthy (PyStr.strip ln))
             (log_lines task))))
  ++ NL.

(** PyYAML loads the document [doc] from the text it dumped it to, as that
    text is read from a file. *)
Definition reads_back (doc : yaml) : Prop :=
  safe_load (universal_newlines (safe_dump doc)) = Ok doc.

End VocabularyYAML.

(** ** Sample data *)

(** A loader and a dumper for the examples: the dumper writes a fixed text
    and the loader returns the document [doc] for every text. *)
Definition fixed_yaml (doc : yaml) : PyYAML :=
  {| safe_dump := fun _ => "---"; safe_load := fun _ => Ok doc |}.

Definition today_2024_01_02 : date := Date.mk 2024 1 2.

Definition done_task : Model.Task :=
  Model.mkTask "2024-01-01__001__ship" "Ship" Model.DONE (Date.mk 2024 1 1)
    (Date.mk 2024 1 1) ""
    "" ["2024-01-01: [created]" : str; "2024-01-01: [done]" : str] [] 2.

Definition done_task_dir : path :=
  ["p" : str; ".tasks" : str; "2024-01-01__001__ship" : str].

Definition done_task_world : world :=
  mkWorld
    (<[ done_task_dir := Dir true ]>
     (<[ ["p" : str; ".tasks" : str] := Dir true ]>
     (<[ ["p" : str] := Dir true ]> (<[ [] := Dir true ]> ∅))))
    ["a message" : str] today_2024_01_02.

(** A project directory without a task store, on 2024-01-02. *)
Definition empty_project : world :=
  mkWorld (<[ ["p" : str] := Dir true ]> (<[ [] := Dir true ]> ∅)) []
    today_2024_01_02.

Definition sample_request : Ops.NewTaskRequest :=
  Ops.mkRequest "Fix the Bug!!" Model.ACTIVE " write a test " "Needs care.  "
    ["docs/bug.md" : str; "  " : str; "URL: http://tracker/7" : str].

Definition sample_id : str := "2024-01-02__001__fix_the_bug".

Definition sample_task_dir : path := ["p" : str; ".tasks" : str; sample_id].

(** A request whose summary holds a carriage return. *)
Definition cr_request : Ops.NewTaskRequest :=
  Ops.mkRequest "Fix the Bug!!" Model.ACTIVE "write a test"
    ("a" ++ ["013"%char] ++ "b") [].

(** A task whose only log line lacks the colon after the date, and a done
    task whose log has no closing entry. *)
Definition bad_log_task : Model.Task :=
  Model.mkTask "2024-01-01__001__t" "T" Model.ACTIVE (Date.mk 2024 1 1)
    (Date.mk 2024 1 1) "do it" "" ["2024-01-01 [created]" : str] [] 2.

Definition unmarked_done_task : Model.Task :=
  Model.mkTask "2024-01-01__001__t" "T" Model.DONE (Date.mk 2024 1 1)
    (Date.mk 2024 1 1) "" "" ["2024-01-01: [created]" : str] [] 2.

(** A task directory whose task.yml says [format: true], and the mapping
    that a YAML loader returns for it. *)
Definition bool_format_document : yaml :=
  YMap [("id" : str, YStr sample_id);
        ("title" : str, YStr "Fix the Bug!!");
        ("status" : str, YStr "active");
        ("created" : str, YStr "2024-01-02");
        ("last_touch" : str, YStr "2024-01-02");
        ("next_action" : str, YStr "write a test");
        ("format" : str, YBool true)].

Definition bool_format_fs : fsys :=
  <[ child sample_task_dir Parse.TASK_YML_NAME := File "format: true" ]>
  (<[ child sample_task_dir Parse.TASK_LOG_NAME
      := File ("2024-01-02: [created]" ++ Ops.NL) ]>
  (<[ sample_task_dir := Dir true ]>
  (<[ ["p" : str; ".tasks" : str] := Dir true ]>
  (<[ ["p" : str] := Dir true ]> (<[ [] := Dir true ]> ∅))))).

(** A store whose directories carry a sign, blanks and an underscore in the
    second segment of their names. *)
Definition signed_store : fsys :=
  <[ ["p" : str; ".tasks" : str; "2024-01-01__+7__a" : str] := Dir true ]>
  (<[ ["p" : str; ".tasks" : str; "2024-01-01__ 1_2 __b" : str] := Dir true ]>
  (<[ ["p" : str; ".tasks" : str] := Dir true ]>
  (<[ ["p" : str] := Dir true ]> (<[ [] := Dir true ]> ∅)))).

(* ===================================================================== *)
(** * Further vocabulary *)
(* ===================================================================== *)

Section Ordering.
Import Model.


Definition three_tasks : list Task :=
  [mkTask "b" "B" DONE (Date.mk 2024 1 1) (Date.mk 2024 1 1) "" "" [] [] 2;
   mkTask "c" "C" ACTIVE (Date.mk 2024 1 1) (Date.mk 2024 1 3) "x" "" [] [] 2;
   mkTask "a" "A" ACTIVE (Date.mk 2024 1 1) (Date.mk 2024 1 2) "y" "" [] [] 2].

End Ordering.

(** A store with a complete task directory, a directory without task.log
    and a file. *)
Definition store_with_stray_entries : fsys :=
  <[ ["p" : str; ".tasks" : str; "t1" : str; "task.yml" : str] := File "x" ]>
  (<[ ["p" : str; ".tasks" : str; "t1" : str; "task.log" : str] := File "y" ]>
  (<[ ["p" : str; ".tasks" : str; "t1" : str] := Dir true ]>
  (<[ ["p" : str; ".tasks" : str; "t2" : str; "task.yml" : str] := File "x" ]>
  (<[ ["p" : str; ".tasks" : str; "t2" : str] := Dir true ]>
  (<[ ["p" : str; ".tasks" : str; "notes" : str] := File "z" ]>
  (<[ ["p" : str; ".tasks" : str] := Dir true ]>
  (<[ ["p" : str] := Dir true ]> (<[ [] := Dir true ]> ∅)))))))).

Section StoredForm.
Import Model Parse.




(** A task directory whose task.yml gives a creation date after the date of
    the last touch. *)
Definition late_document : yaml :=
  YMap [("id" : str, YStr sample_id);
        ("title" : str, YStr "Fix the Bug!!");
        ("status" : str, YStr "active");
        ("created" : str, YStr "2024-01-03");
        ("last_touch" : str, YStr "2024-01-02");
        ("next_action" : str, YStr "write a test")].

End StoredForm.

Section Slugs.



End Slugs.

Section Stored.
Import Model Ops.





End Stored.

Section LinkKinds.
Import Model.


End LinkKinds.

Section Validation.
Import Model Validate.







End Validation.

Section ActionVocabulary.
Import Model Actions.





End ActionVocabulary.

(* ===================================================================== *)
(** * Proofs *)
(* ===================================================================== *)

(** ** Trimming *)

Section StrLemmas.
Import PyStr.
Variable p : ascii -> bool.

Lemma drop_while_nil_iff (s : str) :
  drop_while p s = [] <-> forallb p s = true.
Proof.
  induction s as [|c r IH]; simpl; [tauto|].
  destruct (p c); simpl; [exact IH|]. split; discriminate.
Qed.

Lemma drop_while_idem (s : str) :
  drop_while p (drop_while p s) = drop_while p s.
Proof.
  induction s as [|c r IH]; simpl; [reflexivity|].
  destruct (p c) eqn:E; [exact IH|]. simpl. now rewrite E.
Qed.


Lemma drop_while_fix (c : ascii) (r : str) :
  p c = false -> drop_while p (c :: r) = c :: r.
Proof. intros E. simpl. now rewrite E. Qed.

Lemma drop_while_app_keep (s t : str) :
  drop_while p s <> [] -> drop_while p (s ++ t) = drop_while p s ++ t.
Proof.
  induction s as [|c r IH]; simpl; [congruence|].
  destruct (p c); [exact IH|reflexivity].
Qed.

Lemma drop_while_app_all (s t : str) :
  forallb p s = true -> drop_while p (s ++ t) = drop_while p t.
Proof.
  induction s as [|c r IH]; simpl; [reflexivity|].
  destruct (p c); simpl; [exact IH|discriminate].
Qed.

Lemma rstrip_with_snoc (s : str) (c : ascii) :
  rstrip_with p (s ++ [c]) = if p c then rstrip_with p s else s ++ [c].
Proof.
  unfold rstrip_with. rewrite rev_app_distr. simpl.
  destruct (p c); [reflexivity|]. simpl. now rewrite rev_involutive.
Qed.

Lemma rstrip_with_nil_iff (s : str) :
  rstrip_with p s = [] <-> forallb p s = true.
Proof.
  unfold rstrip_with. split.
  - intros E. apply (f_equal (@rev _)) in E. rewrite rev_involutive in E.
    simpl in E. apply drop_while_nil_iff in E.
    rewrite forallb_forall in *. intros x Hx. apply E. now apply in_rev in Hx.
  - intros E. assert (drop_while p (rev s) = []) as ->; [|reflexivity].
    apply drop_while_nil_iff. rewrite forallb_forall in *. intros x Hx.
    apply E. now apply in_rev.
Qed.

Lemma rstrip_with_idem (s : str) :
  rstrip_with p (rstrip_with p s) = rstrip_with p s.
Proof.
  unfold rstrip_with. rewrite rev_involutive. now rewrite drop_while_idem.
Qed.

Lemma rstrip_with_cons (c : ascii) (s : str) :
  rstrip_with p (c :: s) =
  if forallb p s then (if p c then [] else [c]) else c :: rstrip_with p s.
Proof.
  unfold rstrip_with. simpl rev.
  destruct (forallb p s) eqn:E.
  - rewrite drop_while_app_all.
    + simpl. now destruct (p c).
    + rewrite forallb_forall in *. intros x Hx. apply E. now apply in_rev.
  - rewrite drop_while_app_keep.
    + now rewrite rev_app_distr.
    + intros N. apply drop_while_nil_iff in N.
      assert (forallb p s = true); [|congruence].
      rewrite forallb_forall in *. intros x Hx. apply N. now apply in_rev in Hx.
Qed.

Lemma strip_with_nil_iff (s : str) :
  strip_with p s = [] <-> forallb p s = true.
Proof.
  unfold strip_with, lstrip_with. rewrite rstrip_with_nil_iff.
  split; intros E.
  - induction s as [|c r IH]; simpl in *; [reflexivity|].
    destruct (p c) eqn:Ec; simpl in *; [auto|]. now rewrite Ec in E.
  - induction s as [|c r IH]; simpl in *; [reflexivity|].
    destruct (p c); simpl in *; [auto|discriminate].
Qed.

Lemma lstrip_rstrip_comm (s : str) :
  drop_while p (rstrip_with p s) = rstrip_with p (drop_while p s).
Proof.
  induction s as [|c r IH]; [reflexivity|].
  rewrite rstrip_with_cons. simpl drop_while at 2.
  destruct (forallb p r) eqn:Er; destruct (p c) eqn:Ec; simpl; rewrite ?Ec.
  - symmetry. apply rstrip_with_nil_iff. apply drop_while_nil_iff.
    apply drop_while_nil_iff in Er. rewrite drop_while_idem. exact Er.
  - rewrite rstrip_with_cons, Er, Ec. reflexivity.
  - exact IH.
  - rewrite rstrip_with_cons, Er. reflexivity.
Qed.

Lemma strip_with_idem (s : str) :
  strip_with p (strip_with p s) = strip_with p s.
Proof.
  unfold strip_with, lstrip_with.
  rewrite lstrip_rstrip_comm, drop_while_idem. apply rstrip_with_idem.
Qed.

Lemma strip_with_fix (s : str) (a z : ascii) (m : str) :
  s = a :: m ++ [z] -> p a = false -> p z = false -> strip_with p s = s.
Proof.
  intros -> Ha Hz. unfold strip_with, lstrip_with. rewrite drop_while_fix by exact Ha.
  change (a :: m ++ [z]) with ((a :: m) ++ [z]). rewrite rstrip_with_snoc.
  now rewrite Hz.
Qed.

End StrLemmas.

(** ** Blank strings *)

Lemma truthy_false (s : str) : PyStr.truthy s = false <-> s = [].
Proof. destruct s; simpl; split; congruence. Qed.

Lemma truthy_true (s : str) : PyStr.truthy s = true <-> s <> [].
Proof. destruct s; simpl; split; congruence. Qed.

Lemma blank_iff (s : str) : blank s <-> forallb PyStr.isspace s = true.
Proof. apply strip_with_nil_iff. Qed.

Lemma blank_dec (s : str) : {blank s} + {~ blank s}.
Proof. unfold blank. destruct (PyStr.strip s); [left|right]; congruence. Qed.

(** [not s or not s.strip()] only tests that [s] is blank. *)
Lemma not_or_not_strip (s : str) :
  negb (PyStr.truthy s) || negb (PyStr.truthy (PyStr.strip s))
  = negb (PyStr.truthy (PyStr.strip s)).
Proof. destruct s; reflexivity. Qed.

Lemma strip_idem (s : str) : PyStr.strip (PyStr.strip s) = PyStr.strip s.
Proof. apply strip_with_idem. Qed.

(** ** Dates *)

Lemma date_ltb_false (a b : date) : Date.ltb b a = false <-> Date.le a b.
Proof.
  unfold Date.ltb, Date.le.
  rewrite orb_false_iff, andb_false_iff, orb_false_iff, andb_false_iff.
  rewrite !Z.ltb_ge, !Z.eqb_neq. lia.
Qed.

Lemma date_le_refl (a : date) : Date.le a a.
Proof. unfold Date.le. lia. Qed.

(** ** model.py: the invariants of a task *)

Section TaskInvariant.
Import Model.

Lemma is_DONE_iff (s : Status) : is_DONE s = true <-> s = DONE.
Proof. destruct s; simpl; split; congruence. Qed.

(** A task that satisfies the invariant passes [validate]. *)
Lemma validate_ok (t : Task) : task_invariant t -> validate t = Ok tt.
Proof.
  unfold task_invariant, blank, validate.
  intros (Hid & Hti & Hd & Hdone & Hnot). rewrite !not_or_not_strip.
  apply truthy_true in Hid, Hti. rewrite Hid, Hti. cbn [negb].
  apply date_ltb_false in Hd. rewrite Hd.
  destruct (is_DONE (status t)) eqn:Es.
  - apply is_DONE_iff in Es. now rewrite (Hdone Es).
  - assert (status t <> DONE) as Hs by (rewrite <- is_DONE_iff; congruence).
    apply Hnot, truthy_true in Hs. now rewrite Hs.
Qed.

(** C1. [validate] succeeds exactly on the tasks whose id and title are not
    blank, whose creation date is not after the last touch, and whose next
    action is blank when the status is done and not blank otherwise; on every
    other task it raises [ValueError]. *)
Theorem validate_iff_invariant (t : Task) :
  (validate t = Ok tt <->
   ~ blank (task_id t) /\ ~ blank (title t)
   /\ Date.le (created t) (last_touch t)
   /\ (status t = DONE -> blank (next_action t))
   /\ (status t <> DONE -> ~ blank (next_action t)))
  /\ (~ task_invariant t -> exists msg, validate t = Raise (ValueError msg)).
Proof.
  unfold validate, task_invariant, blank. rewrite !not_or_not_strip.
  destruct (PyStr.strip (task_id t)) eqn:Eid; simpl.
  { split; [split; [discriminate|tauto]|eauto]. }
  destruct (PyStr.strip (title t)) eqn:Eti; simpl.
  { split; [split; [discriminate|tauto]|eauto]. }
  destruct (Date.ltb (last_touch t) (created t)) eqn:Ed.
  { assert (~ Date.le (created t) (last_touch t)) as N.
    { rewrite <- date_ltb_false. congruence. }
    split; [split; [discriminate|tauto]|eauto]. }
  apply date_ltb_false in Ed.
  destruct (is_DONE (status t)) eqn:Es.
  - apply is_DONE_iff in Es.
    destruct (PyStr.strip (next_action t)) eqn:Ena; simpl.
    + split; [|intros N; exfalso; apply N]; repeat split;
        try congruence; try tauto.
    + split; [split; [discriminate|]|eauto].
      intros (_ & _ & _ & Hd & _). specialize (Hd Es). discriminate.
  - assert (status t <> DONE) as Hs.
    { rewrite <- is_DONE_iff. congruence. }
    destruct (PyStr.strip (next_action t)) eqn:Ena; simpl.
    + split; [split; [discriminate|]|eauto].
      intros (_ & _ & _ & _ & Hn). now destruct (Hn Hs).
    + split; [|intros N; exfalso; apply N]; repeat split;
        try congruence; try tauto.
Qed.

End TaskInvariant.

(** ** parse.py: the optional integer field *)

Section OptionalInt.
Import Parse.

(** The value of the key is used when it is an integer, the default when the
    key is absent or holds a value that is neither an integer nor a
    boolean. *)
Lemma optional_int_field_spec (data : dict) (key : str) (default : Z) :
  (dict_get data key = None -> _optional_int_field data key default = default)
  /\ (forall n, dict_get data key = Some (YInt n) ->
                _optional_int_field data key default = n)
  /\ (forall v, dict_get data key = Some v ->
                (forall n, v <> YInt n) -> (forall b, v <> YBool b) ->
                _optional_int_field data key default = default).
Proof.
  unfold _optional_int_field. repeat split.
  - now intros ->.
  - now intros n ->.
  - intros v -> Hn Hb. destruct v; try reflexivity.
    + now destruct (Hb b).
    + now destruct (Hn n).
Qed.

(** C7. A task.yml whose [format] key holds the boolean [true] is parsed
    with format version 1 and not with the default 2: the test
    [isinstance(value, int)] lets booleans through. *)
Theorem optional_int_field_bool :
  _optional_int_field [("format" : str, YBool true)] "format" 2 = 1
  /\ _optional_int_field [("format" : str, YBool false)] "format" 2 = 0
  /\ _optional_int_field [("format" : str, YStr "3")] "format" 2 = 2
  /\ _optional_int_field [("format" : str, YInt 3)] "format" 2 = 3
  /\ _optional_int_field [] "format" 2 = 2.
Proof. repeat split; reflexivity. Qed.

(** The same through [parse_task]: the task parsed from a directory whose
    task.yml says [format: true] has format version 1. *)
Example parse_format_true :
  Model.format_version
  <$> task_of
        (@parse_task (fixed_yaml bool_format_document) bool_format_fs
           sample_task_dir (Some sample_id))
  = Some 1.
Proof. vm_compute. reflexivity. Qed.

End OptionalInt.

(** ** parse.py and ops.py: link entries *)

Section Links.
Import Model Parse.

(** Case analysis on the value found under a key. *)
#[local] Ltac case_dict_get :=
  match goal with
  | |- context [match dict_get ?m ?k with _ => _ end] =>
      destruct (dict_get m k) as [[]|]; try reflexivity
  end.

Lemma parse_links_loop_app (at_path : path) (pre rest : list yaml) :
  forall (i : Z) (out : list Link),
    parse_links_loop at_path i (pre ++ rest) out =
    match parse_links_loop at_path i pre out with
    | Ok out' =>
        parse_links_loop at_path (i + Z.of_nat (length pre)) rest out'
    | Raise e => Raise e
    end.
Proof.
  induction pre as [|item pre IH]; intros i out.
  - simpl. now rewrite Z.add_0_r.
  - replace (i + Z.of_nat (length (item :: pre)))
      with (i + 1 + Z.of_nat (length pre)) by (simpl length; lia).
    simpl. destruct item as [| | | |s| | | |m]; try reflexivity.
    + destruct (negb (PyStr.truthy (PyStr.strip s))); [apply IH|].
      destruct (link_shorthand (PyStr.strip s)). apply IH.
    + case_dict_get. case_dict_get. apply IH.
Qed.

(** The loop only appends to the links it was given. *)
Lemma parse_links_loop_out (at_path : path) (items : list yaml) :
  forall (i : Z) (out : list Link),
    parse_links_loop at_path i items out =
    match parse_links_loop at_path i items [] with
    | Ok l => Ok (out ++ l)
    | Raise e => Raise e
    end.
Proof.
  induction items as [|item items IH]; intros i out; simpl.
  - now rewrite app_nil_r.
  - destruct item as [| | | |s| | | |m]; try reflexivity.
    + destruct (negb (PyStr.truthy (PyStr.strip s))); [apply IH|].
      destruct (link_shorthand (PyStr.strip s)).
      match goal with
      | |- parse_links_loop _ _ _ (out ++ [?l]) = _ =>
          rewrite (IH (i + 1) (out ++ [l])), (IH (i + 1) [l])
      end.
      destruct (parse_links_loop at_path (i + 1) items []); [|reflexivity].
      now rewrite <- app_assoc.
    + case_dict_get. case_dict_get.
      match goal with
      | |- parse_links_loop _ _ _ (out ++ [?l]) = _ =>
          rewrite (IH (i + 1) (out ++ [l])), (IH (i + 1) [l])
      end.
      destruct (parse_links_loop at_path (i + 1) items []); [|reflexivity].
      now rewrite <- app_assoc.
Qed.

(** The index only shows in the message of an error. *)
Lemma parse_links_loop_index (at_path : path) (items : list yaml) :
  forall (i j : Z) (out : list Link),
    links_of (parse_links_loop at_path i items out)
    = links_of (parse_links_loop at_path j items out).
Proof.
  induction items as [|item items IH]; intros i j out; simpl; [reflexivity|].
  destruct item as [| | | |s| | | |m]; try reflexivity.
  - destruct (negb (PyStr.truthy (PyStr.strip s))); [apply IH|].
    destruct (link_shorthand (PyStr.strip s)). apply IH.
  - case_dict_get. case_dict_get. apply IH.
Qed.

Lemma parse_links_list (at_path : path) (items : list yaml) :
  _parse_links at_path [("links" : str, YList items)]
  = parse_links_loop at_path 1 items [].
Proof. reflexivity. Qed.

Lemma normalise_links_loop_app (pre rest : list str) :
  forall out : list Link,
    Ops.normalise_links_loop (pre ++ rest) out
    = Ops.normalise_links_loop rest (Ops.normalise_links_loop pre out).
Proof.
  induction pre as [|raw pre IH]; intros out; simpl; [reflexivity|].
  destruct (negb (PyStr.truthy (PyStr.strip raw))); [apply IH|].
  destruct (link_shorthand (PyStr.strip raw)). apply IH.
Qed.

(** C6, as stated, fails on "a b:c": the string has a colon, but not in its
    first word, and the parser keeps it whole as the value of a file link. *)
Lemma shorthand_counterexample :
  _parse_links [] [("links" : str, YList [YStr "a b:c"])]
  = Ok [mkLink "file" "a b:c"]
  /\ shorthand_as_specified "a b:c" = mkLink "a b" "c"
  /\ mkLink "file" "a b:c" <> shorthand_as_specified "a b:c".
Proof. repeat split; try reflexivity. vm_compute. discriminate. Qed.

(** C6, amended.  Let the entries before [item] be parsed into [out], and let
    [i] be the 1-based index of [item].
    - A string entry is trimmed.  Blank, it is skipped.  Otherwise, when its
      first word contains a colon, the trimmed string is split at its first
      colon into the kind (trimmed, in lower case) and the value (trimmed);
      when its first word has no colon, the trimmed string is the value and
      the kind is "file".
    - A mapping entry needs a string under [kind] and under [value]; the link
      has the kind trimmed and in lower case, and the value trimmed.
      Otherwise the result is a [ParseError] whose message names [links[i]].
    - Any other entry is a [ParseError] whose message names [links[i]]. *)
Theorem parse_links_entry (at_path : path) (pre post : list yaml)
    (item : yaml) (out : list Link) :
  parse_links_loop at_path 1 pre [] = Ok out ->
  let i := Z.of_nat (length pre) + 1 in
  let whole :=
    _parse_links at_path [("links" : str, YList (pre ++ item :: post))] in
  let continue l := parse_links_loop at_path (i + 1) post l in
  (forall raw, item = YStr raw ->
     let s := PyStr.strip raw in
     (blank raw -> whole = continue out)
     /\ (~ blank raw ->
         PyStr.contains_char ":" (PyStr.first_token s) = true ->
         whole =
         continue
           (out ++ [mkLink
                      (PyStr.lower (PyStr.strip (fst (PyStr.split_once ":" s))))
                      (PyStr.strip (snd (PyStr.split_once ":" s)))]))
     /\ (~ blank raw ->
         PyStr.contains_char ":" (PyStr.first_token s) = false ->
         whole = continue (out ++ [mkLink "file" s])))
  /\ (forall m, item = YMap m ->
        (forall k v,
            dict_get m "kind" = Some (YStr k) ->
            dict_get m "value" = Some (YStr v) ->
            whole =
            continue
              (out ++ [mkLink (PyStr.lower (PyStr.strip k)) (PyStr.strip v)]))
        /\ ((forall k, dict_get m "kind" <> Some (YStr k))
            \/ (forall v, dict_get m "value" <> Some (YStr v)) ->
            whole =
            Raise (ParseError at_path
                     ("links[" ++ PyStr.str_of_int i
                      ++ "] must have string 'kind' and 'value'"))))
  /\ ((forall raw, item <> YStr raw) -> (forall m, item <> YMap m) ->
      whole =
      Raise (ParseError at_path
               ("links[" ++ PyStr.str_of_int i
                ++ "] must be a mapping {kind, value} or a string"))).
Proof.
  intros Hpre i whole continue. subst whole.
  rewrite parse_links_list, parse_links_loop_app, Hpre.
  replace (1 + Z.of_nat (length pre)) with i by (subst i; lia).
  unfold blank. split; [|split].
  - intros raw ->. simpl. set (s := PyStr.strip raw). split; [|split].
    + unfold s. now intros ->.
    + intros Hb Hc. apply truthy_true in Hb. rewrite Hb. simpl.
      unfold link_shorthand. rewrite Hc.
      now destruct (PyStr.split_once ":" s).
    + intros Hb Hc. apply truthy_true in Hb. rewrite Hb. simpl.
      unfold link_shorthand. now rewrite Hc.
  - intros m ->. split.
    + intros k v Hk Hv. simpl. simpl in Hk, Hv. now rewrite Hk, Hv.
    + intros [Hk|Hv]; cbn [parse_links_loop].
      * destruct (dict_get m "kind") as [[| | | |k| | | |]|]; try reflexivity.
        now destruct (Hk k).
      * destruct (dict_get m "kind") as [[| | | |k| | | |]|]; try reflexivity.
        destruct (dict_get m "value") as [[| | | |v| | | |]|];
          try reflexivity.
        now destruct (Hv v).
  - intros Hs Hm. destruct item as [| | | |raw| | | |m]; try reflexivity.
    + now destruct (Hs raw).
    + now destruct (Hm m).
Qed.

Lemma parse_links_entry_witness :
  _parse_links [] [("links" : str,
                    YList [YStr "notes.txt"; YStr " URL: http://h "; YInt 7])]
  = Raise (ParseError []
             "links[3] must be a mapping {kind, value} or a string").
Proof.
  refine (proj2 (proj2 (parse_links_entry []
            [YStr "notes.txt"; YStr " URL: http://h "] [] (YInt 7)
            [mkLink "file" "notes.txt"; mkLink "url" "http://h"] _)) _ _).
  - reflexivity.
  - discriminate.
  - discriminate.
Defined.

(** C10. An entry that is empty or only whitespace is skipped by the parser
    and by the normalisation of the links of a creation request: the links
    produced are those of the other entries, in their order, and the entry
    causes no error. *)
Theorem blank_link_entry_skipped (at_path : path) (b : str)
    (pre post : list yaml) (raw_pre raw_post : list str) :
  blank b ->
  links_of
    (_parse_links at_path [("links" : str, YList (pre ++ YStr b :: post))])
  = links_of (_parse_links at_path [("links" : str, YList (pre ++ post))])
  /\ Ops._normalise_links (raw_pre ++ b :: raw_post)
     = Ops._normalise_links (raw_pre ++ raw_post).
Proof.
  unfold blank. intros Hb. split.
  - rewrite !parse_links_list, !parse_links_loop_app.
    destruct (parse_links_loop at_path 1 pre []); [|reflexivity].
    simpl. rewrite Hb. simpl. apply parse_links_loop_index.
  - unfold Ops._normalise_links. rewrite !normalise_links_loop_app.
    simpl. now rewrite Hb.
Qed.

Lemma blank_link_entry_skipped_witness :
  blank "  "
  /\ links_of
       (_parse_links []
          [("links" : str, YList [YStr "a.txt"; YStr "  "; YStr "url: u"])])
     = Some [mkLink "file" "a.txt"; mkLink "url" "u"]
  /\ Ops._normalise_links ["a.txt" : str; "  " : str; "url: u" : str]
     = [mkLink "file" "a.txt"; mkLink "url" "u"].
Proof.
  assert (blank "  ") as Hb by reflexivity.
  split; [exact Hb|].
  pose proof (blank_link_entry_skipped [] "  " [YStr "a.txt"] [YStr "url: u"]
                ["a.txt" : str] ["url: u" : str] Hb) as [H1 H2].
  split.
  - exact (eq_trans H1 eq_refl).
  - exact (eq_trans H2 eq_refl).
Defined.

End Links.

(** ** Paths and directory listings *)

Lemma parent_child (d : path) (n : str) : parent (child d n) = d.
Proof. apply removelast_last. Qed.

Lemma name_of_child (d : path) (n : str) : name_of (child d n) = n.
Proof. apply last_last. Qed.

Lemma child_parent (p : path) : p <> [] -> child (parent p) (name_of p) = p.
Proof. intros Hp. symmetry. now apply app_removelast_last. Qed.

Lemma child_inj (d : path) (a b : str) : child d a = child d b -> a = b.
Proof. intros E. now apply app_inj_tail in E. Qed.

Lemma child_neq_self (d : path) (n : str) : child d n <> d.
Proof.
  intros E. apply (f_equal (@length _)) in E. unfold child in E.
  rewrite length_app in E. simpl in E. lia.
Qed.

Lemma child_not_nil (d : path) (n : str) : child d n <> [].
Proof. unfold child. destruct d; discriminate. Qed.

(** The entries of [d] are the paths [d / name] that exist. *)
Lemma elem_of_entries (fs : fsys) (d p : path) :
  p ∈ entries fs d <-> exists n, p = child d n /\ is_Some (fs !! p).
Proof.
  unfold entries. rewrite list_elem_of_filter, list_elem_of_fmap.
  split.
  - intros [[Hp Hd] [[q x] [-> Hin]]]. simpl in *.
    exists (name_of q). split.
    + rewrite <- Hd. symmetry. now apply child_parent.
    + apply elem_of_map_to_list in Hin. eauto.
  - intros [n [-> [x Hx]]]. split.
    + split; [apply child_not_nil|apply parent_child].
    + exists (child d n, x). split; [reflexivity|].
      now apply elem_of_map_to_list.
Qed.


(** ** ops.py: the next sequence number *)

Section NextSeq.
Import Model Ops.

Lemma seq_step_max (fs : fsys) (created : date) (best : Z) (p : path) :
  seq_step fs (Date.isoformat created ++ "__") best p
  = match entry_number fs created p with
    | Some n => Z.max best n
    | None => best
    end.
Proof.
  unfold seq_step, entry_number, second_segment.
  generalize (PyStr.split_max 2 "__" (name_of p)).
  generalize (PyStr.startswith (name_of p) (Date.isoformat created ++ "__")).
  intros pre parts.
  destruct (is_dir fs p), pre; try reflexivity.
  destruct parts as [|a [|seg r]]; try reflexivity.
  cbn [negb andb length Nat.ltb Nat.leb nth].
  destruct (PyStr.int_of_str seg) as [n|]; [|reflexivity].
  destruct (n >? best) eqn:E; lia.
Qed.

(** The loop computes the largest number met, and [best] when none is
    larger. *)
Lemma seq_loop_spec (fs : fsys) (created : date) (ps : list path) :
  forall best : Z,
    let r := fold_left (seq_step fs (Date.isoformat created ++ "__")) ps best in
    best <= r
    /\ (forall p n, In p ps -> entry_number fs created p = Some n -> n <= r)
    /\ (r = best
        \/ exists p, In p ps /\ entry_number fs created p = Some r).
Proof.
  induction ps as [|p ps IH]; intros best; cbn [fold_left In].
  - repeat split; [lia|tauto|now left].
  - rewrite seq_step_max.
    set (b := match entry_number fs created p with
              | Some n => Z.max best n
              | None => best
              end).
    destruct (IH b) as (Hb & Hall & Hex).
    set (r := fold_left (seq_step fs (Date.isoformat created ++ "__")) ps b)
      in *.
    assert (best <= b) as Hbb.
    { subst b. destruct (entry_number fs created p); lia. }
    split; [lia|]. split.
    + intros q n [<-|Hq] Hn.
      * subst b. rewrite Hn in Hb. lia.
      * eauto.
    + destruct Hex as [Hr|[q [Hq Hn]]]; [|right; eauto].
      subst b. destruct (entry_number fs created p) as [n|] eqn:En.
      * destruct (Z.max_spec best n) as [[_ Hm]|[_ Hm]].
        -- right. exists p. split; [now left|]. congruence.
        -- left. congruence.
      * now left.
Qed.

(** C4, as stated, fails on a store whose only directory for the date is
    2024-01-01__-5__a: the largest number is -5, one more is -4, and the
    next sequence number is 1. *)
Lemma next_task_seq_counterexample :
  let tasks_dir := ["p" : str; ".tasks" : str] in
  let created := Date.mk 2024 1 1 in
  next_task_seq neg_store tasks_dir created = Ok 1
  /\ omap (entry_number neg_store created) (entries neg_store tasks_dir)
     = [-5]
  /\ seq_as_specified [-5] = -4.
Proof. repeat split; vm_compute; reflexivity. Qed.

(** C4, amended.  The next sequence number is 1 when the store is not a
    directory.  When the store can be listed, it is a number [r >= 1] that is
    larger than the number of every subdirectory counted for the date, and
    [r - 1] is 0 or the number of such a subdirectory: one more than the
    largest of 0 and these numbers. Names whose second segment is not numeric
    have no number. *)
Theorem next_task_seq_spec (fs : fsys) (tasks_dir : path) (created : date) :
  (is_dir fs tasks_dir = false -> next_task_seq fs tasks_dir created = Ok 1)
  /\ (fs !! tasks_dir = Some (Dir true) ->
      exists r,
        next_task_seq fs tasks_dir created = Ok r
        /\ 1 <= r
        /\ (forall name n, numbered fs tasks_dir created name n -> n < r)
        /\ (r = 1
            \/ exists name, numbered fs tasks_dir created name (r - 1))).
Proof.
  unfold next_task_seq. split.
  - now intros ->.
  - intros Hd. unfold is_dir, iterdir. rewrite Hd.
    cbn [negb mbind result_bind].
    destruct (seq_loop_spec fs created (entries fs tasks_dir) 0)
      as (H0 & Hall & Hex).
    eexists. split; [reflexivity|]. split; [lia|]. split.
    + intros name n (Hdir & Hpre & Hseg).
      enough (n <= fold_left (seq_step fs (Date.isoformat created ++ "__"))
                     (entries fs tasks_dir) 0) by lia.
      apply (Hall (child tasks_dir name)).
      * apply list_elem_of_In, elem_of_entries. exists name. split; [reflexivity|].
        unfold is_dir in Hdir. destruct (fs !! child tasks_dir name); [eauto|discriminate].
      * unfold entry_number. (rewrite name_of_child, Hdir, Hpre). exact Hseg.
    + destruct Hex as [Hr|[p [Hp Hn]]]; [left; lia|right].
      apply list_elem_of_In, elem_of_entries in Hp as [name [-> _]].
      exists name. unfold entry_number in Hn. rewrite name_of_child in Hn.
      unfold numbered.
      destruct (is_dir fs (child tasks_dir name)); [|discriminate].
      destruct (PyStr.startswith name _); [|discriminate].
      cbn [andb] in Hn. repeat split. rewrite Hn. f_equal. lia.
Qed.

Lemma next_task_seq_spec_witness :
  let tasks_dir := ["p" : str; ".tasks" : str] in
  exists r,
    next_task_seq example_store tasks_dir (Date.mk 2024 1 1) = Ok r
    /\ 1 <= r.
Proof.
  intros tasks_dir.
  destruct (proj2 (next_task_seq_spec example_store tasks_dir
                     (Date.mk 2024 1 1)) eq_refl) as (r & Hr & H1 & _).
  exists r. split; assumption.
Defined.

(** The example of the specification: 2024-01-01__001__a and
    2024-01-01__003__b give 4 for 2024-01-01 and 1 for another date; a
    store that is absent gives 1. *)
Example next_task_seq_example :
  next_task_seq example_store ["p" : str; ".tasks" : str] (Date.mk 2024 1 1)
  = Ok 4
  /\ next_task_seq example_store ["p" : str; ".tasks" : str]
       (Date.mk 2024 1 2) = Ok 1
  /\ next_task_seq example_store ["q" : str; ".tasks" : str]
       (Date.mk 2024 1 1) = Ok 1.
Proof. repeat split; vm_compute; reflexivity. Qed.

(** A second segment counts when [int] reads it as an integer: a sign,
    blanks around it and single underscores between digits are accepted. *)
Example next_task_seq_signed :
  next_task_seq signed_store ["p" : str; ".tasks" : str] (Date.mk 2024 1 1)
  = Ok 13
  /\ second_segment "2024-01-01__+7__a" = Some 7
  /\ second_segment "2024-01-01__ 1_2 __b" = Some 12
  /\ second_segment "2024-01-01__xyz__c" = None.
Proof. repeat split; vm_compute; reflexivity. Qed.

End NextSeq.

(** ** scan.py: the projects of a tree *)

Section SearchPermission.
Import Model Scan.

Variable fs : fsys.
Variable denied : path -> bool.

(** The directories on the way to a child of [d] are those on the way to
    [d], and [d]. *)
Lemma blocked_child (d : path) (n : str) :
  blocked denied (child d n) = blocked denied d || denied d.
Proof.
  unfold blocked, child. rewrite length_app. cbn [length].
  rewrite seq_app, existsb_app. cbn [seq existsb Nat.add].
  rewrite orb_false_r, take_app_length. f_equal.
  assert (forall ks, Forall (fun k => (k <= length d)%nat) ks ->
            existsb (fun k => denied (take k (d ++ [n]))) ks
            = existsb (fun k => denied (take k d)) ks) as Hks.
  { induction 1 as [|k ks Hk _ IH]; [reflexivity|]. cbn [existsb].
    now rewrite IH, take_app_le. }
  apply Hks, Forall_forall. intros k Hk%elem_of_seq. lia.
Qed.

(** Below a directory that denies search, the test of the task store
    raises: nothing is yielded and the error leaves the walk. *)
Lemma walk_dir_denied (level : Z) (fuel : nat) (d : path) (depth : Z) :
  denied d = true ->
  walk_dir fs denied level fuel d depth
  = ([], Some (PermissionError (child d TASKS_DIR_NAME))).
Proof.
  intros Hd. destruct fuel; cbn [walk_dir]; unfold stat_is_dir;
    now rewrite blocked_child, Hd, orb_true_r.
Qed.

(** The loop passes over the entries that are not directories. *)
Lemma for_children_files (visit : path -> gen Project)
    (pre rest : list path) :
  Forall (fun c => blocked denied c = false) pre ->
  forallb (fun c => negb (is_dir fs c)) pre = true ->
  for_children fs denied visit (pre ++ rest)
  = for_children fs denied visit rest.
Proof.
  induction 1 as [|c pre Hc _ IH]; [reflexivity|].
  cbn [forallb app for_children]. intros [Hn Hpre]%andb_true_iff.
  unfold stat_is_dir. rewrite Hc, Hn. now apply IH.
Qed.

End SearchPermission.

Section IterProjects.
Import Model Scan.

Variable fs : fsys.
Variable denied : path -> bool.
Variable level : Z.

(** In this section every directory can be searched. *)
Hypothesis allowed : forall p, denied p = false.













(** Projects are told apart by their directories. *)
Lemma project_of_inj (a b : path) : project_of a = project_of b -> a = b.
Proof. now intros [= ->]. Qed.



End IterProjects.

Section IterProjectsSpec.
Import Model Scan.



(** The example of the specification: with task stores at depth 0 and at
    depth 2, level 1 yields the project at depth 0 and level 2 yields both. *)
Example iter_projects_example :
  fst (iter_projects two_projects searchable ["r" : str] 1)
  = [project_of ["r" : str]]
  /\ fst (iter_projects two_projects searchable ["r" : str] 2)
     = [project_of ["r" : str];
        project_of ["r" : str; "a" : str; "b" : str]].
Proof. split; vm_compute; reflexivity. Qed.

(** A directory on the way that cannot be listed, though it can be
    searched (mode 311), hides what lies below it and nothing else: the
    directory r/a/b holds a task store at depth 2, and at level 2 only the
    project of the root is yielded. *)
Example iter_projects_unlistable :
  project_as_specified unlistable ["r" : str] 2
    (project_of ["r" : str; "a" : str; "b" : str])
  /\ iter_projects unlistable searchable ["r" : str] 2
     = ([project_of ["r" : str]], None).
Proof.
  split.
  - exists ["a" : str; "b" : str]. repeat split; try discriminate;
      vm_compute; congruence.
  - vm_compute. reflexivity.
Qed.

(** C5.  The walk does not skip a directory that denies search (mode 000):
    it ends the loop of the parent.  Let the root be a directory that can be
    listed and searched, at a level of at least 1, and let its listing give,
    after entries that are not directories, a directory [c] other than the
    task store that denies search.  The test of the task store of [c] raises
    [PermissionError] outside the [try] of the walk of [c]; the error reaches
    the handler of the walk of the root, which returns.  The walk then yields
    the project of the root at most, and no exception: none of the
    directories listed after [c] is visited, and the project of none of them
    is yielded, be it within the depth and with a task store. *)
Theorem iter_projects_denied_sibling (fs : fsys) (denied : path -> bool)
    (root : path) (level : Z) (pre : list path) (c : path)
    (post : list path) :
  0 < level ->
  blocked denied root = false ->
  denied root = false ->
  fs !! root = Some (Dir true) ->
  entries fs root = pre ++ c :: post ->
  forallb (fun c' => negb (is_dir fs c')) pre = true ->
  is_dir fs c = true ->
  name_of c <> TASKS_DIR_NAME ->
  denied c = true ->
  iter_projects fs denied root level
  = (if is_dir fs (child root TASKS_DIR_NAME) then [project_of root]
     else [], None)
  /\ forall c', c' ∈ post ->
       project_of c' ∉ fst (iter_projects fs denied root level).
Proof.
  intros Hl Hb Hs Hroot He Hpre Hc Hn Hd.
  assert (forall c', c' ∈ entries fs root -> blocked denied c' = false)
    as Hbc.
  { intros c' (n & -> & _)%elem_of_entries.
    now rewrite blocked_child, Hb, Hs. }
  assert (iter_projects fs denied root level
          = (if is_dir fs (child root TASKS_DIR_NAME) then [project_of root]
             else [], None)) as Hrun.
  { unfold iter_projects.
    assert ((level <? 0) = false) as -> by lia.
    destruct (Z.to_nat level) as [|fuel] eqn:Ef; [lia|].
    cbn [walk_dir]. unfold stat_is_dir at 1.
    rewrite blocked_child, Hb, Hs. cbv beta iota zeta. cbn [orb].
    assert ((0 >=? level) = false) as -> by lia.
    unfold scandir, iterdir. rewrite Hb, Hroot, He.
    rewrite for_children_files; [|
      apply Forall_forall; intros c' Hc'; apply Hbc; rewrite He;
      apply elem_of_app; now left|exact Hpre].
    cbn [for_children]. unfold stat_is_dir at 1.
    rewrite Hbc by (rewrite He; apply elem_of_app; right; left).
    rewrite Hc. cbn [negb].
    unfold PyStr.eqb. rewrite bool_decide_eq_false_2 by exact Hn.
    rewrite walk_dir_denied by exact Hd.
    fold (project_of root). now rewrite app_nil_r. }
  split; [exact Hrun|].
  intros c' Hc' Hin. rewrite Hrun in Hin. cbn [fst] in Hin.
  assert (c' ∈ entries fs root) as (n & -> & _)%elem_of_entries
    by (rewrite He; apply elem_of_app; right; now right).
  destruct (is_dir fs (child root TASKS_DIR_NAME)).
  - apply list_elem_of_singleton, project_of_inj in Hin.
    apply (f_equal (@length _)) in Hin. unfold child in Hin.
    rewrite length_app in Hin. cbn in Hin. lia.
  - inversion Hin.
Qed.

(** The tree r with the directory r/a of mode 000 listed before the project
    r/d: at level 1 nothing is yielded. *)
Lemma iter_projects_denied_sibling_witness :
  (0 < 1
   /\ blocked locked ["r" : str] = false
   /\ locked ["r" : str] = false
   /\ locked_sibling !! ["r" : str] = Some (Dir true)
   /\ entries locked_sibling ["r" : str]
      = [] ++ ["r" : str; "a" : str] :: [["r" : str; "d" : str]]
   /\ is_dir locked_sibling ["r" : str; "a" : str] = true
   /\ name_of ["r" : str; "a" : str] <> TASKS_DIR_NAME
   /\ locked ["r" : str; "a" : str] = true)
  /\ iter_projects locked_sibling locked ["r" : str] 1 = ([], None)
  /\ project_of ["r" : str; "d" : str]
     ∉ fst (iter_projects locked_sibling locked ["r" : str] 1).
Proof.
  assert (entries locked_sibling ["r" : str]
          = [] ++ ["r" : str; "a" : str] :: [["r" : str; "d" : str]]) as He
    by (vm_compute; reflexivity).
  assert (name_of ["r" : str; "a" : str] <> TASKS_DIR_NAME) as Hn
    by discriminate.
  split; [repeat split; try reflexivity; assumption|].
  destruct (iter_projects_denied_sibling locked_sibling locked ["r" : str] 1
              [] ["r" : str; "a" : str] [["r" : str; "d" : str]]
              eq_refl eq_refl eq_refl eq_refl He eq_refl eq_refl Hn eq_refl)
    as [Hrun Hpost].
  split; [exact Hrun|]. apply Hpost. left.
Defined.

(** The project r/d is one that the specification says is yielded: it holds
    a task store at depth 1.  It is yielded when r/a can be searched, also
    when r/a cannot be listed. *)
Example iter_projects_locked_sibling :
  project_as_specified locked_sibling ["r" : str] 1
    (project_of ["r" : str; "d" : str])
  /\ iter_projects locked_sibling searchable ["r" : str] 1
     = ([project_of ["r" : str; "d" : str]], None)
  /\ iter_projects locked_sibling locked ["r" : str] 1 = ([], None).
Proof.
  split.
  - exists ["d" : str]. repeat split; try discriminate;
      vm_compute; congruence.
  - split; vm_compute; reflexivity.
Qed.

End IterProjectsSpec.

(** ** validate.py: the check of file links *)

Section FileLinks.
Import Model Validate.

(** The loop appends the contribution of each link, in order. *)
Lemma check_links_loop_concat (fs : fsys) (project_root : path)
    (links : list Link) :
  forall issues : list ValidationIssue,
    check_links_loop fs (resolve project_root) links issues
    = issues ++ concat (map (contribution fs project_root) links).
Proof.
  induction links as [|l links IH]; intros issues;
    cbn [check_links_loop map concat].
  - now rewrite app_nil_r.
  - unfold contribution at 1, is_file_link, outside_project, link_target.
    destruct (negb (PyStr.eqb _ "file")); [apply IH|].
    destruct (negb (is_relative_to _ _)); cbn [negb].
    { rewrite IH. now rewrite <- app_assoc. }
    destruct (negb (exists_ fs _)).
    { rewrite IH. now rewrite <- app_assoc. }
    apply IH.
Qed.

(** C9. With [check_links] and a project root, the validation reports what
    it reports without [check_links], followed by the issues of the links,
    link by link in order:
    - a link that is not of kind "file" adds nothing;
    - a file link whose value resolves outside the project root adds exactly
      [link_file_outside_project], and so never [link_file_missing];
    - a file link that resolves inside the project root to a path that does
      not exist adds exactly [link_file_missing];
    - a file link that resolves inside to a path that exists adds nothing. *)
Theorem check_file_links_spec (fs : fsys) (task : Task) (task_dir : path)
    (expected_task_id : option str) (project_root : path) :
  exists per_link : list (list ValidationIssue),
    issues (validate_task_file fs task task_dir expected_task_id true
              (Some project_root))
    = issues (validate_task_file fs task task_dir expected_task_id false
                (Some project_root))
      ++ concat per_link
    /\ length per_link = length (links task)
    /\ forall (i : nat) (l : Link) (found : list ValidationIssue),
         links task !! i = Some l -> per_link !! i = Some found ->
         let rel := PyStr.strip (value l) in
         (is_file_link l = false -> found = [])
         /\ (is_file_link l = true -> outside_project project_root l = true ->
             found = [outside_issue rel]
             /\ code (outside_issue rel) = "link_file_outside_project"
             /\ code (outside_issue rel) <> "link_file_missing")
         /\ (is_file_link l = true -> outside_project project_root l = false ->
             exists_ fs (link_target project_root l) = false ->
             found = [missing_issue rel]
             /\ code (missing_issue rel) = "link_file_missing")
         /\ (is_file_link l = true -> outside_project project_root l = false ->
             exists_ fs (link_target project_root l) = true ->
             found = []).
Proof.
  exists (map (contribution fs project_root) (links task)). split; [|split].
  - unfold validate_task_file. cbn [issues].
    unfold _check_file_links_exist. apply check_links_loop_concat.
  - apply length_map.
  - intros i l found Hl Hf rel.
    rewrite list_lookup_fmap, Hl in Hf. injection Hf as <-.
    unfold contribution. split; [|split; [|split]].
    + now intros ->.
    + intros -> ->. repeat split. discriminate.
    + intros -> -> ->. split; reflexivity.
    + intros -> -> ->. reflexivity.
Qed.

(** For a file link that resolves outside the project root, the basic checks
    of the link report nothing: the kind is allowed and the value is not
    blank. *)
Lemma resolve_steps_clean (p : path) :
  forall acc : path,
    Forall (fun c => c <> [] /\ c <> ("." : str) /\ c <> (".." : str)) p ->
    fold_left resolve_step p acc = rev p ++ acc.
Proof.
  induction p as [|c p IH]; intros acc Hp; [reflexivity|].
  inversion Hp as [|? ? (H1 & H2 & H3) Hp']; subst. cbn [fold_left].
  unfold resolve_step at 2. unfold PyStr.eqb.
  rewrite !bool_decide_eq_false_2 by assumption.
  cbn [orb]. rewrite IH by assumption. simpl. now rewrite <- app_assoc.
Qed.

Lemma resolve_steps_forall (p : path) :
  forall acc : path,
    Forall (fun c => c <> [] /\ c <> ("." : str) /\ c <> (".." : str)) acc ->
    Forall (fun c => c <> [] /\ c <> ("." : str) /\ c <> (".." : str))
      (fold_left resolve_step p acc).
Proof.
  induction p as [|c p IH]; intros acc Hacc; [exact Hacc|].
  cbn [fold_left]. apply IH. unfold resolve_step, PyStr.eqb.
  repeat case_bool_decide; cbn [orb]; try exact Hacc.
  - destruct acc; [constructor|]. now inversion Hacc.
  - constructor; [repeat split|]; assumption.
Qed.

Lemma resolve_idem (p : path) : resolve (resolve p) = resolve p.
Proof.
  unfold resolve at 1.
  assert (Forall (fun c => c <> [] /\ c <> ("." : str) /\ c <> (".." : str))
            (resolve p)) as Hc.
  { unfold resolve. apply Forall_rev, resolve_steps_forall. constructor. }
  rewrite resolve_steps_clean by exact Hc.
  now rewrite app_nil_r, rev_involutive.
Qed.

Lemma outside_link_basic (project_root : path) (l : Link)
    (found : list ValidationIssue) (idx : Z) :
  is_file_link l = true -> outside_project project_root l = true ->
  _validate_link_basic l found idx = found.
Proof.
  unfold is_file_link, outside_project, link_target, _validate_link_basic.
  intros Hk Ho. unfold PyStr.eqb in Hk. apply bool_decide_eq_true in Hk.
  rewrite Hk. cbn [allowed_kind negb].
  change (negb (allowed_kind "file")) with false. cbn iota.
  destruct (PyStr.strip (value l)) eqn:Ev; [|reflexivity].
  exfalso. unfold joinpath in Ho. simpl in Ho.
  rewrite app_nil_r, resolve_idem in Ho.
  unfold is_relative_to in Ho. rewrite bool_decide_eq_true_2 in Ho;
    [discriminate|reflexivity].
Qed.

(** The example of the specification: the value "../outside" gives
    [link_file_outside_project] and not [link_file_missing]; a value inside
    the project that does not exist gives [link_file_missing]. *)
Example check_file_links_example :
  _check_file_links_exist small_project
    [mkLink "file" "../outside"; mkLink "url" "http://example.org";
     mkLink "file" "notes.txt"; mkLink " File " "docs/missing.md"]
    ["proj" : str] []
  = [outside_issue "../outside"; missing_issue "docs/missing.md"].
Proof. vm_compute. reflexivity. Qed.

End FileLinks.

(** ** File-system steps *)

(** Reduce the projections of a world that is given by its fields. *)
#[local] Ltac world_step := cbv beta iota delta [w_fs w_stdin w_today fst snd].

Lemma write_text_Ok (fs fs' : fsys) (p : path) (text : str) :
  write_text fs p text = Ok fs' -> fs' = <[p := File text]> fs.
Proof.
  unfold write_text. destruct (fs !! p) as [[]|]; try discriminate.
  - now intros [= <-].
  - destruct (fs !! parent p) as [[]|]; try discriminate. now intros [= <-].
Qed.

(** Writing a file the text it holds changes nothing. *)
Lemma write_text_same (fs : fsys) (p : path) (text : str) :
  fs !! p = Some (File text) -> write_text fs p text = Ok fs.
Proof.
  intros E. unfold write_text. rewrite E. f_equal. now apply insert_id.
Qed.

(** A write is decided by what is at the path and at its parent. *)
Lemma write_text_frame (fs : fsys) (q : path) (n : node) (p : path)
    (text : str) :
  q <> p -> q <> parent p ->
  write_text (<[q := n]> fs) p text =
  match write_text fs p text with
  | Ok fs' => Ok (<[q := n]> fs')
  | Raise e => Raise e
  end.
Proof.
  intros Hp Hpp. unfold write_text.
  rewrite !lookup_insert_ne by assumption.
  destruct (fs !! p) as [[]|]; try reflexivity.
  - f_equal. now apply insert_insert_ne.
  - destruct (fs !! parent p) as [[]|]; try reflexivity.
    f_equal. now apply insert_insert_ne.
Qed.

Lemma unlink_Ok (fs fs' : fsys) (p : path) :
  unlink fs p = Ok fs' -> fs' = delete p fs.
Proof.
  unfold unlink. destruct (fs !! p) as [[]|]; try discriminate.
  now intros [= <-].
Qed.

Lemma is_dir_insert_ne (fs : fsys) (q d : path) (n : node) :
  q <> d -> is_dir (<[q := n]> fs) d = is_dir fs d.
Proof. intros Hq. unfold is_dir. now rewrite lookup_insert_ne. Qed.

Lemma is_dir_delete_ne (fs : fsys) (q d : path) :
  q <> d -> is_dir (delete q fs) d = is_dir fs d.
Proof. intros Hq. unfold is_dir. now rewrite lookup_delete_ne. Qed.

Lemma names_differ :
  Parse.TASK_YML_NAME <> Parse.TASK_LOG_NAME
  /\ Parse.TASK_YML_NAME <> Parse.SUMMARY_MD_NAME
  /\ Parse.TASK_LOG_NAME <> Parse.SUMMARY_MD_NAME.
Proof. repeat split; discriminate. Qed.

Lemma child_neq (d : path) (a b : str) : a <> b -> child d a <> child d b.
Proof. intros Hab E. now apply child_inj in E. Qed.

Lemma child_neq_parent (d : path) (a b : str) :
  child d a <> parent (child d b).
Proof. rewrite parent_child. apply child_neq_self. Qed.

(** ** ops.py: writing a task *)

Section WriteTask.
Context `{PyYAML}.
Import Model Ops.

(** The three steps of [write_task] on the file system, once the task
    directory is known to be there. *)
Lemma write_task_unfold (d : path) (task : Task) (w : world) :
  write_task d task w =
  if negb (is_dir (w_fs w) d) then (Raise (FileNotFoundError d), w)
  else
    match write_text (w_fs w) (child d TASK_YML_NAME) (yml_text task) with
    | Raise e => (Raise e, w)
    | Ok fs1 =>
        match write_text fs1 (child d TASK_LOG_NAME) (log_text task) with
        | Raise e => (Raise e, mkWorld fs1 (w_stdin w) (w_today w))
        | Ok fs2 =>
            if PyStr.truthy (PyStr.rstrip (summary task)) then
              match write_text fs2 (child d SUMMARY_MD_NAME)
                      (PyStr.rstrip (summary task) ++ NL) with
              | Raise e => (Raise e, mkWorld fs2 (w_stdin w) (w_today w))
              | Ok fs3 => (Ok tt, mkWorld fs3 (w_stdin w) (w_today w))
              end
            else if exists_ fs2 (child d SUMMARY_MD_NAME) then
              match unlink fs2 (child d SUMMARY_MD_NAME) with
              | Raise e => (Raise e, mkWorld fs2 (w_stdin w) (w_today w))
              | Ok fs3 => (Ok tt, mkWorld fs3 (w_stdin w) (w_today w))
              end
            else (Ok tt, mkWorld fs2 (w_stdin w) (w_today w))
        end
    end.
Proof.
  unfold write_task, yml_text, log_text, mbind, st_bind, get, on_fs, raise,
    mret, st_ret.
  destruct w as [fs0 inp today]. world_step.
  destruct (is_dir fs0 d); cbn [negb]; [|reflexivity].
  destruct (write_text fs0 _ _) as [fs1|e]; world_step; [|reflexivity].
  destruct (write_text fs1 _ _) as [fs2|e]; world_step; [|reflexivity].
  destruct (PyStr.truthy _).
  - destruct (write_text fs2 _ _); reflexivity.
  - destruct (exists_ fs2 _); [|reflexivity].
    destruct (unlink fs2 _); reflexivity.
Qed.

(** C3. Writing a task again, nothing else having changed, gives the same
    result and leaves the world as the first write left it: task.yml,
    task.log and summary.md hold the same bytes after both writes (and
    summary.md is absent after both when the summary is blank). *)
Theorem write_task_idempotent (d : path) (task : Task) (w : world) :
  let first := write_task d task w in
  let second := write_task d task (snd first) in
  second = first
  /\ forall name : str,
       w_fs (snd second) !! child d name = w_fs (snd first) !! child d name.
Proof.
  cbv zeta.
  enough (write_task d task (snd (write_task d task w)) = write_task d task w)
    as E by (split; [exact E|intros name; now rewrite E]).
  destruct names_differ as (Hyl & Hys & Hls).
  destruct w as [fs0 inp today].
  rewrite (write_task_unfold d task (mkWorld fs0 inp today)). world_step.
  destruct (is_dir fs0 d) eqn:Ed; cbn [negb].
  2: { world_step. rewrite write_task_unfold. world_step. now rewrite Ed. }
  destruct (write_text fs0 (child d TASK_YML_NAME) (yml_text task))
    as [fs1|e] eqn:E1.
  2: { world_step. rewrite write_task_unfold. world_step.
       now rewrite Ed, E1. }
  apply write_text_Ok in E1. 
  assert (is_dir fs1 d = true) as Ed1.
  { subst fs1. rewrite is_dir_insert_ne; [exact Ed|apply child_neq_self]. }
  assert (write_text fs1 (child d TASK_YML_NAME) (yml_text task) = Ok fs1)
    as W1.
  { apply write_text_same. subst fs1. apply lookup_insert_eq. }
  destruct (write_text fs1 (child d TASK_LOG_NAME) (log_text task))
    as [fs2|e] eqn:E2.
  2: { world_step. rewrite write_task_unfold. world_step.
       now rewrite Ed1, W1, E2. }
  pose proof E2 as E2'. apply write_text_Ok in E2'.
  assert (is_dir fs2 d = true) as Ed2.
  { subst fs2. rewrite is_dir_insert_ne; [exact Ed1|apply child_neq_self]. }
  assert (fs2 !! child d TASK_YML_NAME = Some (File (yml_text task))) as L1.
  { subst fs2 fs1. rewrite lookup_insert_ne by (apply child_neq; congruence).
    apply lookup_insert_eq. }
  assert (fs2 !! child d TASK_LOG_NAME = Some (File (log_text task))) as L2.
  { subst fs2. apply lookup_insert_eq. }
  assert (write_text fs2 (child d TASK_YML_NAME) (yml_text task) = Ok fs2)
    as W21 by now apply write_text_same.
  assert (write_text fs2 (child d TASK_LOG_NAME) (log_text task) = Ok fs2)
    as W22 by now apply write_text_same.
  destruct (PyStr.truthy (PyStr.rstrip (summary task))) eqn:Es.
  - destruct (write_text fs2 (child d SUMMARY_MD_NAME) _) as [fs3|e] eqn:E3.
    2: { world_step. rewrite write_task_unfold. world_step.
         now rewrite Ed2, W21, W22, Es, E3. }
    apply write_text_Ok in E3.
    world_step. rewrite write_task_unfold. world_step.
    assert (is_dir fs3 d = true) as ->.
    { subst fs3. rewrite is_dir_insert_ne; [exact Ed2|apply child_neq_self]. }
    cbn [negb].
    rewrite (write_text_same fs3 (child d TASK_YML_NAME)).
    2: { subst fs3. now rewrite lookup_insert_ne by (apply child_neq; congruence). }
    rewrite (write_text_same fs3 (child d TASK_LOG_NAME)).
    2: { subst fs3. now rewrite lookup_insert_ne by (apply child_neq; congruence). }
    rewrite Es. rewrite (write_text_same fs3 (child d SUMMARY_MD_NAME));
      [reflexivity|]. subst fs3. apply lookup_insert_eq.
  - destruct (exists_ fs2 (child d SUMMARY_MD_NAME)) eqn:Ex.
    2: { world_step. rewrite write_task_unfold. world_step.
         now rewrite Ed2, W21, W22, Es, Ex. }
    destruct (unlink fs2 (child d SUMMARY_MD_NAME)) as [fs3|e] eqn:E3.
    2: { world_step. rewrite write_task_unfold. world_step.
         now rewrite Ed2, W21, W22, Es, Ex, E3. }
    apply unlink_Ok in E3.
    world_step. rewrite write_task_unfold. world_step.
    assert (is_dir fs3 d = true) as ->.
    { subst fs3. rewrite is_dir_delete_ne; [exact Ed2|apply child_neq_self]. }
    cbn [negb].
    rewrite (write_text_same fs3 (child d TASK_YML_NAME)).
    2: { subst fs3. now rewrite lookup_delete_ne by (apply child_neq; congruence). }
    rewrite (write_text_same fs3 (child d TASK_LOG_NAME)).
    2: { subst fs3. now rewrite lookup_delete_ne by (apply child_neq; congruence). }
    rewrite Es.
    assert (exists_ fs3 (child d SUMMARY_MD_NAME) = false) as ->;
      [|reflexivity].
    unfold exists_. subst fs3. now rewrite lookup_delete_eq.
Qed.


End WriteTask.

(** ** actions.py: the next action of a done task *)

Section SetNextAction.
Context `{PyYAML}.
Import Model Actions.

(** C8. On a task whose status is done, [set_next_action] raises the
    [ValidationError] "Cannot set next action on done task", whatever the
    message and the next action given, and the task, the files and the
    standard input are as they were: nothing was asked, changed or
    written. *)
Theorem set_next_action_done (task : Task) (w : world) (task_dir : path)
    (next_action message : option str) :
  status task = DONE ->
  set_next_action task_dir next_action message (task, w)
  = (Raise (ValidationError "Cannot set next action on done task"),
     (task, w)).
Proof.
  intros Hs. unfold set_next_action, mbind, st_bind, the_task.
  cbn [fst snd]. now rewrite Hs.
Qed.




End SetNextAction.

Lemma set_next_action_done_witness :
  @Actions.set_next_action (fixed_yaml YNull) done_task_dir
    (Some ("call them" : str)) None (done_task, done_task_world)
  = (Raise (ValidationError "Cannot set next action on done task"),
     (done_task, done_task_world)).
Proof.
  exact (@set_next_action_done (fixed_yaml YNull) done_task done_task_world
           done_task_dir (Some ("call them" : str)) None eq_refl).
Defined.

(** ** Dates as text *)

Lemma digit_char_cases (d : Z) :
  0 <= d < 10 ->
  In (PyStr.digit_char d)
    ["0"; "1"; "2"; "3"; "4"; "5"; "6"; "7"; "8"; "9"]%char.
Proof.
  intros Hd.
  assert (d = 0 \/ d = 1 \/ d = 2 \/ d = 3 \/ d = 4 \/ d = 5 \/ d = 6
          \/ d = 7 \/ d = 8 \/ d = 9) as Hc by lia.
  repeat (destruct Hc as [->|Hc]; [simpl; tauto|]). subst. simpl. tauto.
Qed.

Lemma digit_char_value (d : Z) :
  0 <= d < 10 ->
  PyStr.isdigit (PyStr.digit_char d) = true
  /\ PyStr.digit_value (PyStr.digit_char d) = d
  /\ PyStr.isspace (PyStr.digit_char d) = false.
Proof.
  intros Hd.
  assert (d = 0 \/ d = 1 \/ d = 2 \/ d = 3 \/ d = 4 \/ d = 5 \/ d = 6
          \/ d = 7 \/ d = 8 \/ d = 9) as Hc by lia.
  repeat (destruct Hc as [->|Hc]; [repeat split; reflexivity|]).
  subst. repeat split; reflexivity.
Qed.

Lemma fixed_digits_chars (w : nat) :
  forall n : Z, Forall date_char (Date.fixed_digits w n).
Proof.
  induction w as [|w IH]; intros n; simpl; [constructor|].
  apply Forall_app. split; [apply IH|].
  constructor; [|constructor]. left.
  apply digit_char_value. apply Z.mod_pos_bound. lia.
Qed.

Lemma isoformat_chars (d : date) : Forall date_char (Date.isoformat d).
Proof.
  unfold Date.isoformat. change (list_ascii_of_string "-") with ["-"%char].
  rewrite !Forall_app. repeat split; try apply fixed_digits_chars;
    (constructor; [now right|constructor]).
Qed.

Lemma date_char_plain (c : ascii) :
  date_char c ->
  PyStr.isspace c = false /\ PyStr.is_linebreak c = false
  /\ Ascii.eqb c "013" = false /\ Ascii.eqb c "_" = false.
Proof.
  intros [Hd| ->]; [|repeat split; reflexivity].
  unfold PyStr.isdigit, PyStr.isspace, PyStr.is_linebreak in *.
  assert (nat_of_ascii c <> 13 /\ nat_of_ascii c <> 95)%nat as [H13 H95].
  { apply andb_true_iff in Hd as [H1 H2].
    apply Nat.leb_le in H1, H2. lia. }
  repeat split.
  - apply andb_true_iff in Hd as [H1 H2]. apply Nat.leb_le in H1, H2.
    apply orb_false_iff. split; apply andb_false_iff.
    + right. apply Nat.leb_gt. lia.
    + right. apply Nat.leb_gt. lia.
  - apply andb_true_iff in Hd as [H1 H2]. apply Nat.leb_le in H1, H2.
    apply orb_false_iff. split; apply andb_false_iff.
    + right. apply Nat.leb_gt. lia.
    + right. apply Nat.leb_gt. lia.
  - apply Ascii.eqb_neq. intros ->. now apply H13.
  - apply Ascii.eqb_neq. intros ->. now apply H95.
Qed.

Lemma isoformat_length (d : date) : length (Date.isoformat d) = 10%nat.
Proof. reflexivity. Qed.

(** Reading back a date written in ISO format. *)
Lemma fromisoformat_isoformat (d : date) :
  Date.valid d = true -> Date.fromisoformat (Date.isoformat d) = Some d.
Proof.
  intros Hv. pose proof Hv as Hv'.
  unfold Date.valid in Hv'. rewrite !andb_true_iff in Hv'.
  destruct Hv' as (((((Hy1 & Hy2) & Hm1) & Hm2) & Hd1) & Hd2).
  apply Z.leb_le in Hy1, Hy2, Hm1, Hm2, Hd1, Hd2.
  assert (Date.days_in_month (Date.year d) (Date.month d) <= 31) as Hdim.
  { unfold Date.days_in_month.
    repeat match goal with |- context [if ?b then _ else _] => destruct b end;
      lia. }
  destruct d as [y m dd]. cbn [Date.year Date.month Date.day] in *.
  unfold Date.isoformat. cbn [Date.year Date.month Date.day Date.fixed_digits app].
  assert (forall n, 0 <= n mod 10 < 10) as Hmod
      by (intros n; apply Z.mod_pos_bound; lia).
  unfold Date.fromisoformat.
  change (list_ascii_of_string "-") with ["-"%char]. cbn [app].
  cbn [Date.parse_digits].
  repeat match goal with
         | |- context [PyStr.isdigit (PyStr.digit_char (?n mod 10))] =>
             rewrite (proj1 (digit_char_value (n mod 10) (Hmod n)))
         end.
  repeat match goal with
         | |- context [PyStr.digit_value (PyStr.digit_char (?n mod 10))] =>
             rewrite (proj1 (proj2 (digit_char_value (n mod 10) (Hmod n))))
         end.
  cbn [mbind option_bind].
  match goal with
  | |- (if Date.valid (Date.mk ?a ?b ?c) then _ else _) = _ =>
      replace a with y by (Z.div_mod_to_equations; lia);
      replace b with m by (Z.div_mod_to_equations; lia);
      replace c with dd by (Z.div_mod_to_equations; lia)
  end.
  now rewrite Hv.
Qed.

(** ** Lines of text *)

Lemma universal_newlines_id (s : str) :
  Forall (fun c => Ascii.eqb c "013" = false) s ->
  universal_newlines s = s.
Proof.
  unfold universal_newlines. induction 1 as [|c r Hc Hr IH]; simpl;
    [reflexivity|]. rewrite Hc. simpl. now rewrite IH.
Qed.

Lemma splitlines_from_line (s : str) :
  forall (cur rest : str),
    Forall (fun c => PyStr.is_linebreak c = false) s ->
    PyStr.splitlines_from false cur (s ++ "010"%char :: rest)
    = (rev cur ++ s) :: PyStr.splitlines_from false [] rest.
Proof.
  induction s as [|c s IH]; intros cur rest Hs.
  - simpl. now rewrite app_nil_r.
  - inversion Hs as [|? ? Hc Hs']; subst. cbn [app PyStr.splitlines_from andb].
    rewrite Hc. rewrite IH by assumption. simpl. now rewrite <- app_assoc.
Qed.

(** ** parse.py: reading what [create_task] wrote *)

Section ReadCreated.
Import Model Parse Ops.

(** Texts made of a date and of characters written out. *)
#[local] Ltac plain_chars :=
  rewrite ?Forall_app; repeat split; try assumption; repeat constructor.

Lemma date_chars_forall (P : ascii -> Prop) (s : str) :
  (forall c, date_char c -> P c) -> Forall date_char s -> Forall P s.
Proof. intros HP Hs. eapply Forall_impl; eauto. Qed.

(** A text that starts with a date is not blank. *)
Lemma date_prefix_not_blank (d : date) (rest : str) :
  ~ blank (Date.isoformat d ++ rest).
Proof.
  rewrite blank_iff. intros Hb.
  pose proof (isoformat_chars d) as Hc.
  destruct (Date.isoformat d) as [|c r] eqn:E.
  - apply (f_equal (@length _)) in E. rewrite isoformat_length in E.
    discriminate.
  - inversion Hc as [|? ? Hd ?]; subst. simpl in Hb.
    apply date_char_plain in Hd as [Hs _]. rewrite Hs in Hb. discriminate.
Qed.

Lemma rstrip_closed (s : str) :
  PyStr.rstrip (s ++ ["]"%char]) = s ++ ["]"%char].
Proof. unfold PyStr.rstrip. now rewrite rstrip_with_snoc. Qed.

(** The lines that [create_task] writes to the log are read back as they
    are. *)
Lemma parse_initial_log (fs : fsys) (p : path) (today : date)
    (status : Status) :
  fs !! p = Some (File (PyStr.join NL (initial_log today status) ++ NL)) ->
  _parse_task_log fs p = Ok (initial_log today status).
Proof.
  intros Hf. unfold _parse_task_log, read_text. rewrite Hf. clear Hf.
  assert (forall line, PyStr.truthy (PyStr.strip (Date.isoformat today ++ line))
                       = true) as Htruthy.
  { intros line. apply truthy_true. apply date_prefix_not_blank. }
  unfold initial_log.
  pose proof (date_chars_forall (fun c => Ascii.eqb c "013" = false) _
                (fun c Hc => proj1 (proj2 (proj2 (date_char_plain c Hc))))
                (isoformat_chars today)) as Hcr.
  pose proof (date_chars_forall (fun c => PyStr.is_linebreak c = false) _
                (fun c Hc => proj1 (proj2 (date_char_plain c Hc)))
                (isoformat_chars today)) as Hlb.
  revert Htruthy Hcr Hlb. generalize (Date.isoformat today). intros iso Ht Hcr Hlb.
  assert (PyStr.rstrip (iso ++ ": [created]") = iso ++ ": [created]") as Hrc.
  { change (list_ascii_of_string ": [created]")
      with (list_ascii_of_string ": [created" ++ ["]"%char]).
    rewrite app_assoc. apply rstrip_closed. }
  assert (PyStr.rstrip (iso ++ ": [done]") = iso ++ ": [done]") as Hrd.
  { change (list_ascii_of_string ": [done]")
      with (list_ascii_of_string ": [done" ++ ["]"%char]).
    rewrite app_assoc. apply rstrip_closed. }
  unfold NL.
  destruct (is_DONE status); cbn [PyStr.join].
  - rewrite universal_newlines_id by plain_chars.
    unfold PyStr.splitlines. rewrite <- !app_assoc. cbn [app].
    rewrite (app_assoc iso (list_ascii_of_string ": [created]")).
    rewrite splitlines_from_line by plain_chars.
    rewrite (app_assoc iso (list_ascii_of_string ": [done]")).
    rewrite splitlines_from_line by plain_chars.
    cbn [PyStr.splitlines_from List.filter rev app]. rewrite !Ht.
    cbn [map]. now rewrite Hrc, Hrd.
  - rewrite universal_newlines_id by plain_chars.
    unfold PyStr.splitlines.
    rewrite splitlines_from_line by plain_chars.
    cbn [PyStr.splitlines_from List.filter rev app]. rewrite !Ht.
    cbn [map]. now rewrite Hrc.
Qed.

End ReadCreated.

(** ** Lower case and blanks *)

Lemma lower_char_idem (c : ascii) :
  PyStr.lower_char (PyStr.lower_char c) = PyStr.lower_char c.
Proof. destruct c as [[] [] [] [] [] [] [] []]; reflexivity. Qed.

Lemma isspace_lower_char (c : ascii) :
  PyStr.isspace (PyStr.lower_char c) = PyStr.isspace c.
Proof. destruct c as [[] [] [] [] [] [] [] []]; reflexivity. Qed.

Lemma lower_idem (s : str) : PyStr.lower (PyStr.lower s) = PyStr.lower s.
Proof.
  unfold PyStr.lower. rewrite map_map. apply map_ext. apply lower_char_idem.
Qed.

Lemma drop_while_map (p : ascii -> bool) (f : ascii -> ascii) (s : str) :
  (forall c, p (f c) = p c) ->
  PyStr.drop_while p (map f s) = map f (PyStr.drop_while p s).
Proof.
  intros Hf. induction s as [|c r IH]; simpl; [reflexivity|].
  rewrite Hf. now destruct (p c).
Qed.

Lemma strip_lower (s : str) :
  PyStr.strip (PyStr.lower s) = PyStr.lower (PyStr.strip s).
Proof.
  unfold PyStr.strip, PyStr.strip_with, PyStr.rstrip_with, PyStr.lstrip_with,
    PyStr.lower.
  rewrite drop_while_map by apply isspace_lower_char.
  rewrite <- map_rev, drop_while_map by apply isspace_lower_char.
  now rewrite map_rev.
Qed.

Lemma lower_strip_normal (s : str) :
  PyStr.lower (PyStr.strip (PyStr.lower (PyStr.strip s)))
  = PyStr.lower (PyStr.strip s).
Proof. now rewrite <- strip_lower, lower_idem, strip_lower, strip_idem. Qed.

Lemma rstrip_sublist (P : ascii -> Prop) (s : str) :
  Forall P s -> Forall P (PyStr.rstrip s).
Proof.
  intros Hs. unfold PyStr.rstrip, PyStr.rstrip_with. apply Forall_rev.
  apply Forall_rev in Hs. revert Hs. generalize (rev s). intros r Hr.
  induction Hr as [|c r Hc Hr IH]; simpl; [constructor|].
  destruct (PyStr.isspace c); [exact IH|now constructor].
Qed.

(** What is read back of a summary written without the blanks that end it
    and with a newline. *)
Lemma strip_rstrip_newline (s : str) :
  PyStr.strip (PyStr.rstrip s ++ Ops.NL) = PyStr.strip s.
Proof.
  unfold PyStr.strip, PyStr.strip_with, PyStr.lstrip_with.
  rewrite <- !lstrip_rstrip_comm. f_equal.
  unfold Ops.NL. rewrite rstrip_with_snoc.
  change (PyStr.isspace "010") with true. cbn iota.
  apply rstrip_with_idem.
Qed.

Lemma rstrip_nil_strip (s : str) : PyStr.rstrip s = [] -> PyStr.strip s = [].
Proof.
  intros E. apply rstrip_with_nil_iff in E. now apply strip_with_nil_iff.
Qed.

(** ** Links in normal form *)

Section NormalLinks.
Import Model Parse Ops.

Lemma link_shorthand_normal (s : str) :
  PyStr.strip s = s ->
  let '(k, v) := link_shorthand s in
  PyStr.lower (PyStr.strip k) = k /\ PyStr.strip v = v.
Proof.
  intros Hs. unfold link_shorthand.
  destruct (PyStr.contains_char ":" (PyStr.first_token s)).
  - destruct (PyStr.split_once ":" s) as [k v]. split.
    + apply lower_strip_normal.
    + apply strip_idem.
  - split; [reflexivity|exact Hs].
Qed.

Lemma normalise_links_loop_normal (raw : list str) :
  forall out : list Link,
    Forall normal_link out -> Forall normal_link (normalise_links_loop raw out).
Proof.
  induction raw as [|r raw IH]; intros out Hout; simpl; [exact Hout|].
  destruct (negb (PyStr.truthy (PyStr.strip r))); [now apply IH|].
  pose proof (link_shorthand_normal (PyStr.strip r) (strip_idem r)) as Hn.
  destruct (link_shorthand (PyStr.strip r)) as [k v]. destruct Hn as [Hk Hv].
  apply IH. apply Forall_app. split; [exact Hout|].
  constructor; [|constructor]. split; cbn [kind value]; [|exact Hv].
  destruct (negb (PyStr.truthy k)); [reflexivity|exact Hk].
Qed.

Lemma normalise_links_normal (raw : list str) :
  Forall normal_link (_normalise_links raw).
Proof. apply normalise_links_loop_normal. constructor. Qed.

Lemma dict_get_here (k : str) (v : yaml) (rest : dict) :
  dict_get ((k, v) :: rest) k = Some v.
Proof. simpl. unfold PyStr.eqb. now rewrite bool_decide_eq_true_2. Qed.

Lemma dict_get_next (k k' : str) (v : yaml) (rest : dict) :
  k' <> k -> dict_get ((k', v) :: rest) k = dict_get rest k.
Proof.
  intros Hk. simpl. unfold PyStr.eqb. now rewrite bool_decide_eq_false_2.
Qed.

(** The entries that [_render_task_yml] writes for links in normal form are
    parsed into these links. *)
Lemma parse_rendered_links (at_path : path) (ls : list Link) :
  forall (i : Z) (out : list Link),
    Forall normal_link ls ->
    parse_links_loop at_path i (map link_entry ls) out = Ok (out ++ ls).
Proof.
  induction ls as [|l ls IH]; intros i out Hls; cbn [map parse_links_loop].
  - now rewrite app_nil_r.
  - inversion Hls as [|? ? [Hk Hv] Hls']; subst.
    unfold link_entry at 1. cbv beta iota.
    rewrite dict_get_here, dict_get_next, dict_get_here by discriminate.
    rewrite Hk, Hv, IH by assumption. rewrite <- app_assoc.
    now destruct l.
Qed.

End NormalLinks.

(** ** parse.py: the fields of a freshly created task *)

Section ParseCreated.
Context `{PyYAML}.
Import Model Parse Ops.

Lemma status_value_parsed (st : Status) :
  Status_of_value (PyStr.lower (PyStr.strip (Status_value st))) = Some st.
Proof. destruct st; reflexivity. Qed.

Lemma status_value_not_blank (st : Status) :
  PyStr.truthy (PyStr.strip (Status_value st)) = true.
Proof. destruct st; reflexivity. Qed.

Lemma implied_task_invariant (req : NewTaskRequest) (today : date)
    (id : str) :
  creation_preconditions req -> ~ blank id ->
  task_invariant (implied_task req today id).
Proof.
  intros (Ht & Hna & _) Hid. unfold task_invariant, implied_task.
  cbn [task_id title created last_touch status next_action].
  unfold initial_next_action.
  split; [exact Hid|]. split; [exact Ht|]. split; [apply date_le_refl|].
  split.
  - intros ->. reflexivity.
  - intros Hs. specialize (Hna Hs).
    assert (is_DONE (req_status req) = false) as ->.
    { destruct (is_DONE (req_status req)) eqn:E; [|reflexivity].
      apply is_DONE_iff in E. contradiction. }
    unfold blank in *. now rewrite strip_idem.
Qed.

(** Parsing a directory that holds what [create_task] writes for the
    request [req] on the day [today] under the id [id]. *)
Lemma parse_created (fs : fsys) (d : path) (req : NewTaskRequest)
    (today : date) (id : str) (expected : option str) :
  creation_preconditions req ->
  Date.valid today = true ->
  ~ blank id ->
  (expected = None \/ expected = Some id) ->
  reads_back (implied_document req today id) ->
  is_dir fs d = true ->
  fs !! child d TASK_YML_NAME
  = Some (File (safe_dump (implied_document req today id))) ->
  fs !! child d TASK_LOG_NAME
  = Some (File (PyStr.join NL (initial_log today (req_status req)) ++ NL)) ->
  fs !! child d SUMMARY_MD_NAME
  = (if PyStr.truthy (PyStr.rstrip (req_summary req))
     then Some (File (PyStr.rstrip (req_summary req) ++ NL)) else None) ->
  parse_task fs d expected = Ok (implied_task req today id).
Proof.
  intros Hpre Hvalid Hid Hexp Hback Hd Hyml Hlog Hsum.
  pose proof (implied_task_invariant req today id Hpre Hid) as Hinv.
  destruct Hpre as (Htitle & Hna & Hcr).
  unfold parse_task.
  assert (exists_ fs d = true) as ->.
  { unfold exists_, is_dir in *. now destruct (fs !! d). }
  rewrite Hd. cbn [negb].
  (* the required files *)
  assert (_require_files fs d = Ok tt) as ->.
  { unfold _require_files, REQUIRED_FILES. cbn [List.filter].
    unfold is_file. now rewrite Hyml, Hlog. }
  cbn [mbind result_bind].
  (* task.yml *)
  assert (_parse_task_yml fs (child d TASK_YML_NAME)
          = Ok [("id" : str, YStr id);
                ("title" : str, YStr (req_title req));
                ("status" : str, YStr (Status_value (req_status req)));
                ("created" : str, YStr (Date.isoformat today));
                ("last_touch" : str, YStr (Date.isoformat today));
                ("next_action" : str, YStr (initial_next_action req));
                ("format" : str, YInt 2);
                ("links" : str,
                 YList (map link_entry (_normalise_links (req_links req))))])
    as ->.
  { unfold _parse_task_yml, read_text. rewrite Hyml.
    unfold reads_back in Hback. rewrite Hback. reflexivity. }
  cbn [mbind result_bind].
  (* task.log *)
  rewrite (parse_initial_log fs _ today (req_status req) Hlog).
  cbn [mbind result_bind].
  (* summary.md *)
  assert (exists text,
             _read_optional_text fs (child d SUMMARY_MD_NAME) = Ok text
             /\ PyStr.strip text = PyStr.strip (req_summary req))
    as (text & -> & Htext).
  { unfold _read_optional_text, exists_, is_file, read_text. rewrite Hsum.
    destruct (PyStr.truthy (PyStr.rstrip (req_summary req))) eqn:Et.
    - cbn [negb]. eexists. split; [reflexivity|].
      rewrite universal_newlines_id.
      + apply strip_rstrip_newline.
      + apply Forall_app. split; [now apply rstrip_sublist|].
        repeat constructor.
    - cbn [negb]. exists []. split; [reflexivity|].
      apply truthy_false in Et. symmetry. now apply rstrip_nil_strip. }
  cbn [mbind result_bind].
  (* the fields *)
  unfold _require_str_field, _parse_status, _parse_date, _parse_links,
    _optional_int_field, _require_str_field.
  repeat first
    [ rewrite dict_get_here
    | rewrite dict_get_next by discriminate ].
  cbn [negb andb mbind result_bind].
  apply truthy_true in Hid. rewrite Hid. cbn [negb mbind result_bind].
  assert (match expected with
          | Some expected0 =>
              if negb (PyStr.eqb id expected0)
              then
                Raise
                  (ParseError (child d TASK_YML_NAME)
                     ("YAML id '" ++ id ++ "' does not match expected id '"
                      ++ expected0 ++ "'"))
              else Ok ()
          | None => Ok ()
          end = Ok tt) as ->.
  { destruct Hexp as [->| ->]; [reflexivity|]. unfold PyStr.eqb.
    now rewrite bool_decide_eq_true_2. }
  cbn [mbind result_bind].
  apply truthy_true in Htitle. rewrite Htitle. cbn [negb mbind result_bind].
  rewrite status_value_not_blank. cbn [negb andb mbind result_bind].
  rewrite status_value_parsed. cbn [mbind result_bind].
  rewrite (fromisoformat_isoformat today Hvalid).
  cbn [mbind result_bind].
  rewrite parse_rendered_links by apply normalise_links_normal.
  cbn [mbind result_bind app]. rewrite Htext.
  fold (implied_task req today id). now rewrite (validate_ok _ Hinv).
Qed.

End ParseCreated.

(** ** Creating directories *)

#[local] Ltac world_step_in H :=
  cbv beta iota delta [w_fs w_stdin w_today fst snd] in H.

Lemma parent_neq (p : path) : p <> [] -> parent p <> p.
Proof.
  intros Hp E. apply (f_equal (@length _)) in E. unfold parent in E.
  rewrite <- (child_parent p Hp) in E at 2. unfold child, parent in E.
  rewrite length_app in E. simpl in E. lia.
Qed.

Lemma os_mkdir_Ok (fs fs' : fsys) (p : path) :
  os_mkdir fs p = Ok fs' ->
  fs !! p = None /\ p <> [] /\ is_dir fs (parent p) = true
  /\ fs' = <[p := Dir true]> fs.
Proof.
  unfold os_mkdir, is_dir. destruct (fs !! p); [discriminate|].
  destruct p as [|c p]; [discriminate|].
  destruct (fs !! parent (c :: p)) as [[]|]; try discriminate.
  intros [= <-]. repeat split. discriminate.
Qed.

(** A new directory in a directory keeps the file system well formed. *)
Lemma fs_wf_insert_dir (fs : fsys) (p : path) (b : bool) :
  fs_wf fs -> p <> [] -> is_dir fs (parent p) = true ->
  fs_wf (<[p := Dir b]> fs).
Proof.
  intros Hwf Hp Hpar q Hq Hsome.
  destruct (decide (parent q = p)) as [E|E].
  - unfold is_dir. rewrite E. now rewrite lookup_insert_eq.
  - rewrite is_dir_insert_ne by congruence.
    destruct (decide (q = p)) as [->|Eq]; [exact Hpar|].
    rewrite lookup_insert_ne in Hsome by congruence. now apply Hwf.
Qed.

Lemma mkdir_from_Ok (fuel : nat) :
  forall (fs fs' : fsys) (p : path) (parents exist_ok : bool),
    mkdir_from fuel fs p parents exist_ok = Ok fs' ->
    is_dir fs' p = true /\ (fs_wf fs -> fs_wf fs').
Proof.
  assert (forall (fs fs1 : fsys) (p : path),
             os_mkdir fs p = Ok fs1 ->
             is_dir fs1 p = true /\ (fs_wf fs -> fs_wf fs1)) as Hos.
  { intros fs fs1 p Eos. apply os_mkdir_Ok in Eos as (_ & Hp & Hpar & ->).
    split; [|intros Hwf; now apply fs_wf_insert_dir].
    unfold is_dir. now rewrite lookup_insert_eq. }
  assert (forall (fs fs' : fsys) (p : path) (exist_ok : bool) (e : exn),
             (if negb exist_ok || negb (is_dir fs p)
              then Raise e else Ok fs) = Ok fs' ->
             is_dir fs' p = true /\ (fs_wf fs -> fs_wf fs')) as Hexists.
  { intros fs fs' p exist_ok e Hm.
    destruct (negb exist_ok || negb (is_dir fs p)) eqn:E; [discriminate|].
    injection Hm as <-. apply orb_false_iff in E as [_ E].
    apply negb_false_iff in E. now split. }
  induction fuel as [|fuel IH]; intros fs fs' p parents exist_ok Hm.
  - cbn [mkdir_from] in Hm.
    destruct (os_mkdir fs p) as [fs1|e] eqn:Eos.
    + injection Hm as <-. now apply Hos.
    + destruct e; try discriminate; now apply Hexists in Hm.
  - cbn [mkdir_from] in Hm.
    destruct (os_mkdir fs p) as [fs1|e] eqn:Eos.
    + injection Hm as <-. now apply Hos.
    + destruct e; try (now apply Hexists in Hm).
      destruct (negb parents || bool_decide (parent p = p)); [discriminate|].
      destruct (mkdir_from fuel fs (parent p) true true) as [fs1|e] eqn:E1;
        [|discriminate].
      cbn [mbind result_bind] in Hm.
      apply IH in E1 as [_ Hwf1]. apply IH in Hm as [Hd Hwf2].
      split; [exact Hd|auto].
Qed.

(** A directory made where none was, in a directory that is there. *)
Lemma mkdir_fresh (fs fs' : fsys) (p : path) :
  is_dir fs (parent p) = true ->
  mkdir fs p true false = Ok fs' ->
  fs !! p = None /\ p <> [] /\ fs' = <[p := Dir true]> fs.
Proof.
  intros Hpar. unfold mkdir. cbn [mkdir_from].
  destruct (os_mkdir fs p) as [fs1|e] eqn:Eos.
  - intros [= <-]. apply os_mkdir_Ok in Eos. tauto.
  - unfold os_mkdir in Eos. destruct (fs !! p) eqn:Ep.
    + injection Eos as <-. discriminate.
    + destruct p as [|c p]; [injection Eos as <-|].
      * cbn [negb orb]. rewrite bool_decide_eq_true_2 by reflexivity.
        discriminate.
      * unfold is_dir in Hpar.
        destruct (fs !! parent (c :: p)) as [[]|]; discriminate.
Qed.

(** ** ops.py: what [create_task] leaves on disk *)

Section Created.
Context `{PyYAML}.
Import Model Parse Ops.

Lemma ensure_tasks_dir_Ok (cwd : path) (interactive : bool) (w w1 : world)
    (tasks_dir : path) :
  ensure_tasks_dir cwd interactive w = (Ok tasks_dir, w1) ->
  tasks_dir = child cwd TASKS_DIR_NAME
  /\ is_dir (w_fs w1) tasks_dir = true
  /\ (fs_wf (w_fs w) -> fs_wf (w_fs w1))
  /\ w_today w1 = w_today w.
Proof.
  unfold ensure_tasks_dir, mbind, st_bind, get, on_fs, raise, mret, st_ret,
    input.
  destruct w as [fs0 inp today]. world_step.
  destruct (is_dir fs0 (child cwd TASKS_DIR_NAME)) eqn:Ed.
  { intros [= <- <-]. now repeat split. }
  assert (forall r, (match mkdir fs0 (child cwd TASKS_DIR_NAME) true true with
                     | Ok fs' => (Ok tt, mkWorld fs' r today)
                     | Raise e => (Raise e, mkWorld fs0 inp today)
                     end = (Ok tt, w1)) ->
                    is_dir (w_fs w1) (child cwd TASKS_DIR_NAME) = true
                    /\ (fs_wf fs0 -> fs_wf (w_fs w1))
                    /\ w_today w1 = today) as Hmk.
  { intros r Hm.
    destruct (mkdir fs0 _ true true) as [fs1|e] eqn:Em; [|discriminate].
    injection Hm as <-. world_step. unfold mkdir in Em.
    apply mkdir_from_Ok in Em as [Hd Hwf]. now repeat split. }
  destruct interactive; cbn [negb].
  - destruct inp as [|line rest]; world_step; [discriminate|].
    destruct (PyStr.eqb _ "" || PyStr.eqb _ "y" || PyStr.eqb _ "yes");
      [|discriminate].
    destruct (mkdir fs0 _ true true) as [fs1|e] eqn:Em; world_step;
      [|discriminate].
    intros [= <- <-]. split; [reflexivity|]. now apply (Hmk rest).
  - destruct (mkdir fs0 _ true true) as [fs1|e] eqn:Em; world_step;
      [|discriminate].
    intros [= <- <-]. split; [reflexivity|]. now apply (Hmk inp).
Qed.

Lemma next_task_seq_pos (fs : fsys) (tasks_dir : path) (created : date)
    (seq : Z) :
  next_task_seq fs tasks_dir created = Ok seq -> 1 <= seq.
Proof.
  unfold next_task_seq. destruct (negb (is_dir fs tasks_dir)).
  - intros [= <-]. lia.
  - destruct (iterdir fs tasks_dir) as [ps|e]; [|discriminate].
    cbn [mbind result_bind]. intros Hs.
    pose proof (seq_loop_spec fs created ps 0) as [H0 _].
    assert (seq = fold_left (seq_step fs (Date.isoformat created ++ "__"))
                    ps 0 + 1) as -> by congruence.
    lia.
Qed.

(** In a well-formed file system, nothing lies in a directory that is not
    there. *)
Lemma fs_wf_absent (fs : fsys) (d : path) (name : str) :
  fs_wf fs -> fs !! d = None -> fs !! child d name = None.
Proof.
  intros Hwf Hd. destruct (fs !! child d name) eqn:E; [|reflexivity].
  assert (is_dir fs (parent (child d name)) = true) as Hp.
  { apply Hwf; [apply child_not_nil|]. rewrite E. eauto. }
  rewrite parent_child in Hp. unfold is_dir in Hp. now rewrite Hd in Hp.
Qed.

(** C2. Let the request satisfy the preconditions of a creation, today be a
    date, the file system be well formed, [create_task] succeed, and PyYAML
    read back the document written to task.yml.  Then the directory created
    is named by the id generated for today, a sequence number and the slug of
    the title, and parsing it, with or without the id expected, gives the
    task that the request implies: this id, the title, the status, the next
    action trimmed (none for a done task), the links in normal form, the
    summary trimmed, today as creation date and as last touch, format
    version 2, and the first lines of the log. *)
Theorem create_then_parse (cwd : path) (req : NewTaskRequest)
    (interactive : bool) (w w' : world) (task_dir : path) :
  creation_preconditions req ->
  Date.valid (w_today w) = true ->
  fs_wf (w_fs w) ->
  create_task cwd req interactive w = (Ok task_dir, w') ->
  reads_back (implied_document req (w_today w) (name_of task_dir)) ->
  (exists seq,
      1 <= seq
      /\ task_dir
         = child (child cwd TASKS_DIR_NAME)
             (generated_id (w_today w) seq (req_title req)))
  /\ parse_task (w_fs w') task_dir (Some (name_of task_dir))
     = Ok (implied_task req (w_today w) (name_of task_dir))
  /\ parse_task (w_fs w') task_dir None
     = Ok (implied_task req (w_today w) (name_of task_dir)).
Proof.
  intros Hpre Hvalid Hwf Hcreate Hback.
  destruct names_differ as (Hyl & Hys & Hls).
  unfold create_task in Hcreate. unfold mbind at 1, st_bind at 1 in Hcreate.
  destruct (ensure_tasks_dir cwd interactive w) as [[tasks_dir|e] w1] eqn:Eens;
    [|discriminate].
  apply ensure_tasks_dir_Ok in Eens as (-> & Hd1 & Hwf1 & Htoday).
  specialize (Hwf1 Hwf). destruct w1 as [fs1 inp1 today1].
  cbn [w_fs w_today] in Hd1, Hwf1, Htoday. subst today1.
  set (today := w_today w) in *.
  unfold mbind, st_bind, date_today, get, raise, on_fs, mret, st_ret
    in Hcreate.
  world_step_in Hcreate.
  destruct (next_task_seq fs1 (child cwd TASKS_DIR_NAME) today)
    as [seq|e] eqn:Eseq; [|discriminate].
  apply next_task_seq_pos in Eseq.
  fold (generated_id today seq (req_title req)) in Hcreate.
  set (id := generated_id today seq (req_title req)) in *.
  set (d := child (child cwd TASKS_DIR_NAME) id) in *.
  destruct (mkdir fs1 d true false) as [fs2|e] eqn:Emk; world_step_in Hcreate;
    [|discriminate].
  apply mkdir_fresh in Emk as (Hfresh & _ & ->);
    [|unfold d; now rewrite parent_child].
  fold (initial_next_action req) in Hcreate.
  fold (implied_document req today id) in Hcreate.
  unfold _render_task_yml in Hcreate.
  fold (implied_document req today id) in Hcreate.
  destruct (write_text _ (child d TASK_YML_NAME) _) as [fs3|e] eqn:E3;
    world_step_in Hcreate; [|discriminate].
  apply write_text_Ok in E3.
  assert ((if is_DONE (req_status req)
           then [Date.isoformat today ++ ": [created]"]
                ++ [Date.isoformat today ++ ": [done]"]
           else [Date.isoformat today ++ ": [created]"])
          = initial_log today (req_status req)) as Hlogs.
  { unfold initial_log. now destruct (is_DONE (req_status req)). }
  rewrite Hlogs in Hcreate. clear Hlogs.
  destruct (write_text fs3 (child d TASK_LOG_NAME) _) as [fs4|e] eqn:E4;
    world_step_in Hcreate; [|discriminate].
  apply write_text_Ok in E4.
  assert (name_of d = id) as Hname by apply name_of_child.
  assert (exists fs5,
             w' = mkWorld fs5 inp1 today /\ task_dir = d
             /\ fs5 !! d = Some (Dir true)
             /\ fs5 !! child d TASK_YML_NAME
                = Some (File (safe_dump (implied_document req today id)))
             /\ fs5 !! child d TASK_LOG_NAME
                = Some (File (PyStr.join NL
                                (initial_log today (req_status req)) ++ NL))
             /\ fs5 !! child d SUMMARY_MD_NAME
                = (if PyStr.truthy (PyStr.rstrip (req_summary req))
                   then Some (File (PyStr.rstrip (req_summary req) ++ NL))
                   else None))
    as (fs5 & -> & -> & Hdir & Hyml & Hlog & Hsum).
  { destruct (PyStr.truthy (PyStr.rstrip (req_summary req))) eqn:Es.
    - destruct (write_text fs4 (child d SUMMARY_MD_NAME) _) as [fs5|e] eqn:E5;
        world_step_in Hcreate; [|discriminate].
      apply write_text_Ok in E5. injection Hcreate as <- <-.
      exists fs5. subst fs5 fs4 fs3. repeat split.
      + rewrite !lookup_insert_ne by apply child_neq_self.
        apply lookup_insert_eq.
      + rewrite !lookup_insert_ne by (apply child_neq; congruence).
        apply lookup_insert_eq.
      + rewrite !lookup_insert_ne by (apply child_neq; congruence).
        apply lookup_insert_eq.
      + apply lookup_insert_eq.
    - injection Hcreate as <- <-.
      exists fs4. subst fs4 fs3. repeat split.
      + rewrite !lookup_insert_ne by apply child_neq_self.
        apply lookup_insert_eq.
      + rewrite !lookup_insert_ne by (apply child_neq; congruence).
        apply lookup_insert_eq.
      + apply lookup_insert_eq.
      + rewrite !lookup_insert_ne by (apply child_neq; congruence).
        rewrite lookup_insert_ne by apply not_eq_sym, child_neq_self.
        now apply fs_wf_absent. }
  rewrite Hname in *. cbn [w_fs].
  assert (~ blank id) as Hid.
  { unfold id, generated_id. apply date_prefix_not_blank. }
  assert (is_dir fs5 d = true) as Hisdir.
  { unfold is_dir. now rewrite Hdir. }
  split; [exists seq; now split|].
  split; eapply parse_created; eauto.
Qed.

End Created.

Section CreateExamples.
Import Model Parse Ops.

Lemma empty_project_wf : fs_wf (w_fs empty_project).
Proof.
  unfold empty_project. cbn [w_fs].
  apply fs_wf_insert_dir; [|discriminate|reflexivity].
  intros p Hp Hsome. destruct Hsome as [x Hx].
  apply lookup_insert_Some in Hx as [[<- _]|[_ Hx]]; [contradiction|].
  now rewrite lookup_empty in Hx.
Qed.

(** C2, as stated, fails on a request whose summary holds a carriage return:
    summary.md is read back with universal newlines, and the summary parsed
    has a line feed where the request has the carriage return. *)
Lemma create_then_parse_counterexample :
  let Y := fixed_yaml (implied_document cr_request today_2024_01_02 sample_id) in
  let created := @create_task Y ["p" : str] cr_request false empty_project in
  preconditions_as_specified cr_request
  /\ fst created = Ok sample_task_dir
  /\ (exists t,
         @parse_task Y (w_fs (snd created)) sample_task_dir (Some sample_id)
         = Ok t
         /\ summary t = "a" ++ ["010"%char] ++ "b"
         /\ summary (implied_task cr_request today_2024_01_02 sample_id)
            = "a" ++ ["013"%char] ++ "b"
         /\ summary t
            <> summary (implied_task cr_request today_2024_01_02 sample_id)).
Proof.
  cbv zeta. split; [|split].
  - split; [intros E; vm_compute in E; discriminate|].
    intros _ E. vm_compute in E. discriminate.
  - vm_compute. reflexivity.
  - eexists. split; [vm_compute; reflexivity|].
    cbn [summary]. repeat split. discriminate.
Qed.

Lemma create_then_parse_witness :
  let Y :=
    fixed_yaml (implied_document sample_request today_2024_01_02 sample_id) in
  let created := @create_task Y ["p" : str] sample_request false empty_project in
  fst created = Ok sample_task_dir
  /\ @parse_task Y (w_fs (snd created)) sample_task_dir None
     = Ok (mkTask sample_id "Fix the Bug!!" ACTIVE today_2024_01_02
             today_2024_01_02 "write a test" "Needs care."
             ["2024-01-02: [created]" : str]
             [mkLink "file" "docs/bug.md"; mkLink "url" "http://tracker/7"]
             2).
Proof.
  cbv zeta.
  set (Y := fixed_yaml
              (implied_document sample_request today_2024_01_02 sample_id)).
  assert (fst (@create_task Y ["p" : str] sample_request false empty_project)
          = Ok sample_task_dir) as Hfst by (vm_compute; reflexivity).
  assert (@create_task Y ["p" : str] sample_request false empty_project
          = (Ok sample_task_dir,
             snd (@create_task Y ["p" : str] sample_request false
                    empty_project))) as Hc.
  { rewrite <- Hfst. apply surjective_pairing. }
  assert (creation_preconditions sample_request) as Hpre.
  { split; [intros E; vm_compute in E; discriminate|].
    split; [intros _ E; vm_compute in E; discriminate|].
    repeat constructor. }
  split; [exact Hfst|].
  refine (eq_trans
            (proj2 (proj2 (@create_then_parse Y ["p" : str] sample_request
                             false empty_project _ sample_task_dir Hpre
                             eq_refl empty_project_wf Hc eq_refl)))
            _).
  vm_compute. reflexivity.
Defined.

End CreateExamples.

(** ** The examples of the specification *)

Section SpecExamples.
Import Model Ops Validate.

Example strip_example : PyStr.strip "  a b  " = ("a b" : str).
Proof. reflexivity. Qed.

Example splitlines_example :
  PyStr.splitlines ("a" ++ ["013"; "010"]%char ++ "b" ++ ["010"]%char)
  = ["a" : str; "b" : str].
Proof. reflexivity. Qed.

Example split_max_example :
  PyStr.split_max 2 "__" "2024-01-01__003__b__c"
  = ["2024-01-01" : str; "003" : str; "b__c" : str].
Proof. reflexivity. Qed.

Example format_0d_example :
  PyStr.format_0d 3 4 = ("004" : str)
  /\ PyStr.format_0d 3 1234 = ("1234" : str)
  /\ PyStr.str_of_int 0 = ("0" : str)
  /\ PyStr.str_of_int 120 = ("120" : str).
Proof. repeat split; reflexivity. Qed.

Example int_of_str_example :
  PyStr.int_of_str "003" = Some 3 /\ PyStr.int_of_str "-5" = Some (-5)
  /\ PyStr.int_of_str " 1_0 " = Some 10 /\ PyStr.int_of_str "a" = None
  /\ PyStr.int_of_str "" = None /\ PyStr.int_of_str "1__0" = None.
Proof. repeat split; reflexivity. Qed.

(** [int] skips a tab or a line feed around the number, not the separator
    of code 28, although [str.isspace] holds of it. *)
Example int_of_str_blanks :
  PyStr.int_of_str ("009"%char :: "5" ++ ["010"%char]) = Some 5
  /\ PyStr.isspace "028" = true
  /\ PyStr.int_of_str ("028"%char :: "5") = None.
Proof. repeat split; reflexivity. Qed.

Example slugify_example :
  slugify "Fix the Bug!!" = ("fix_the_bug" : str)
  /\ slugify "" = ("task" : str) /\ slugify "___" = ("task" : str).
Proof. repeat split; reflexivity. Qed.

Example isoformat_example :
  Date.isoformat (Date.mk 2024 1 2) = ("2024-01-02" : str)
  /\ Date.fromisoformat "2024-02-29" = Some (Date.mk 2024 2 29)
  /\ Date.fromisoformat "2023-02-29" = None.
Proof. repeat split; reflexivity. Qed.

Example log_line_example :
  log_line_matches "2024-01-01: [created]" = true
  /\ log_line_matches "2024-01-01: [status] waiting - for review" = true
  /\ log_line_matches "2024-01-01 [created]" = false
  /\ log_line_matches "2024-01-01: [Created]" = false.
Proof. repeat split; vm_compute; reflexivity. Qed.

Example validate_task_file_example :
  map code (issues (validate_task_file ∅ bad_log_task [] None false None))
  = ["log_bad_format" : str]
  /\ map code
       (issues (validate_task_file ∅ unmarked_done_task [] None false None))
     = ["done_no_marker" : str].
Proof. split; vm_compute; reflexivity. Qed.

End SpecExamples.

(* ===================================================================== *)
(** * Further properties of the engine *)
(* ===================================================================== *)

(** ** model.py: the order of a listing *)









Section SortTasks.
Import Model.







(** *** Insertion *)





Example sort_tasks_example :
  map task_id (sort_tasks three_tasks) = ["a" : str; "c" : str; "b" : str].
Proof. vm_compute. reflexivity. Qed.

End SortTasks.

(** ** scan.py: the task directories of a project *)

Section IterTaskFiles.
Import Model Scan.





Section Allowed.

Variable fs : fsys.
Variable denied : path -> bool.
Hypothesis allowed : forall p, denied p = false.


End Allowed.



Example iter_task_files_example :
  map Scan.task_id
    (fst (iter_task_files store_with_stray_entries searchable
            (mkProject ["p" : str] ["p" : str; ".tasks" : str])))
  = ["t1" : str].
Proof. vm_compute. reflexivity. Qed.

End IterTaskFiles.

(** ** parse.py: what [parse_task] raises and what it returns *)






Section ParseTask.
Context `{PyYAML}.
Import Model Parse.









Lemma require_str_field_Ok (at_path : path) (data : dict) (key : str)
    (v : str) :
  _require_str_field at_path data key false = Ok v -> ~ blank v.
Proof.
  unfold _require_str_field.
  destruct (dict_get data key) as [[]|]; try discriminate.
  cbn [negb andb].
  destruct (PyStr.truthy (PyStr.strip s)) eqn:E; [|discriminate].
  intros [= <-]. now apply truthy_true.
Qed.












End ParseTask.


(** A task.yml that says the task was created after it was last touched
    makes [parse_task] raise a [ValueError], not a [ParseError]. *)
Example parse_task_value_error :
  @Parse.parse_task (fixed_yaml late_document) bool_format_fs sample_task_dir
    (Some sample_id)
  = Raise (ValueError "created must be <= last_touch").
Proof. vm_compute. reflexivity. Qed.


(** ** ops.py: slugs *)

Section SubRuns.
Variable p : ascii -> bool.









End SubRuns.

(** *** Texts without two underscores in a row *)







Section Slugify.
Import Ops.








End Slugify.

(** ** ops.py: the sequence number in a task id *)












Section GeneratedId.
Import Ops.




End GeneratedId.

(** ** ops.py: the task store and the directories created in it *)


Section Store.
Context `{PyYAML}.
Import Model Parse Ops.






End Store.

Section StoreExamples.
Import Model Parse Ops.



End StoreExamples.

(** ** ops.py and parse.py: writing a task and reading it back *)




Section LogText.
Import Ops.






End LogText.

Section WriteParse.
Context `{PyYAML}.
Import Model Parse Ops.






End WriteParse.

Section WriteParseExamples.
Import Model Parse Ops.



End WriteParseExamples.

(** ** ops.py and parse.py: the links of a request and the status *)

Section LinksAgree.
Import Model Parse Ops.



Example normalise_links_as_parsed_example :
  _parse_links [] [("links" : str, YList [YStr ":x"; YStr "URL: y"])]
  = Ok [mkLink "" "x"; mkLink "url" "y"]
  /\ _normalise_links [":x" : str; "URL: y" : str]
     = [mkLink "file" "x"; mkLink "url" "y"].
Proof. split; vm_compute; reflexivity. Qed.



End LinksAgree.

(** ** validate.py: the format of a log line *)

Section Regex.
Import Validate.









End Regex.





(** ** validate.py: the issues of a task *)

Section Issues.
Import Model Validate.









End Issues.

(** ** validate.py and ops.py: the issues of a task just created *)

Section CreatedValidates.
Import Model Ops Validate.





End CreatedValidates.

(** ** actions.py: what the actions do to a task *)

Section ActionSteps.
Context `{PyYAML}.
Import Model Actions.







End ActionSteps.

(** *** The task after an action *)

Section Touched.
Import Model Actions.



End Touched.

Section ActionResults.
Context `{PyYAML}.
Import Model Actions.








End ActionResults.

Section ActionExamples.
Import Model Actions.





End ActionExamples.

